(** * ThreatScrape: a shallow embedding of [threatscrape.py]

    The script is a linear pipeline: load a JSON configuration, ask a
    generative-text API for aliases of a threat-actor name, build a search
    query, page through a search API, write the results to two files.

    Python values that come out of [json.load] / [response.json()] are
    modelled by the type [json] below; the builtins the script applies to
    them ([in], subscripting, iteration, truthiness, [str.split],
    [str.strip], ...) are modelled on every constructor, raising the
    exception Python raises.  Effects (HTTP requests, file writes, sleeping,
    printing) are recorded in a trace of events; the outside world (the two
    HTTP endpoints, the configuration file and whether a file can be opened
    for writing) is a parameter of the program.  Logging calls are not
    recorded, and a write to a file that has been opened succeeds. *)

From Stdlib Require Import ZArith String Ascii Bool Lia DecimalString List.
Import ListNotations.
Set Warnings "-register-all".
Local Open Scope string_scope.
Local Open Scope Z_scope.

(* ================================================================= *)
(** ** Python values and builtins *)

Module Py.

(** Values produced by Python's [json] module.  Objects keep their
    insertion order (iterating a [dict] yields its keys in that order), so
    they are association lists; a key is looked up at its first
    occurrence.  JSON numbers with a fraction are outside the model. *)
Inductive json : Type :=
| JNull
| JBool (b : bool)
| JInt (n : Z)
| JStr (s : string)
| JArr (l : list json)
| JObj (m : list (string * json)).

(** Exceptions the script can meet. *)
Inductive exn : Type :=
| TypeError
| KeyError
| IndexError
| AttributeError
| ValueError
| OSError
| SystemExit (code : Z).

Inductive result (A : Type) : Type :=
| Ok (a : A)
| Raise (e : exn).
Arguments Ok {A} a.
Arguments Raise {A} e.

(** The double-quote character. *)
Definition dquote : ascii := "034"%char.

(** [bool(v)] *)
Definition truthy (v : json) : bool :=
  match v with
  | JNull => false
  | JBool b => b
  | JInt n => negb (n =? 0)
  | JStr EmptyString => false
  | JStr _ => true
  | JArr [] => false
  | JArr _ => true
  | JObj [] => false
  | JObj _ => true
  end.

(** Truthiness of a [str]. *)
Definition nonempty (s : string) : bool :=
  match s with
  | EmptyString => false
  | String _ _ => true
  end.

(** *** Strings

    A Python [str] is a sequence of code points; the model keeps the code
    points below 256, one per [ascii]. *)

(** [c.isspace()] for a code point below 256: TAB, LF, VT, FF, CR, the
    four separators 28..31, SPACE, NEL (133) and NBSP (160). *)
Definition isspace (c : ascii) : bool :=
  let n := Z.of_nat (nat_of_ascii c) in
  ((9 <=? n) && (n <=? 13)) || ((28 <=? n) && (n <=? 32))
  || (n =? 133) || (n =? 160).

(** [s.lstrip()] *)
Fixpoint lstrip (s : string) : string :=
  match s with
  | EmptyString => EmptyString
  | String c s' => if isspace c then lstrip s' else s
  end.

(** [s.rstrip()] *)
Fixpoint rstrip (s : string) : string :=
  match s with
  | EmptyString => EmptyString
  | String c s' =>
      match rstrip s' with
      | EmptyString => if isspace c then EmptyString else String c EmptyString
      | r => String c r
      end
  end.

(** [s.strip()] *)
Definition strip (s : string) : string := rstrip (lstrip s).

(** [s.split(sep)] for a one-character separator: the fragments between
    the occurrences of [sep], empty ones included. *)
Fixpoint split (sep : ascii) (s : string) : list string :=
  match s with
  | EmptyString => [EmptyString]
  | String c s' =>
      if Ascii.eqb c sep then EmptyString :: split sep s'
      else match split sep s' with
           | [] => [String c EmptyString]
           | frag :: frags => String c frag :: frags
           end
  end.

(** [sep.join(parts)] *)
Definition join (sep : string) (parts : list string) : string :=
  String.concat sep parts.

(** [s.replace(a, b)] for one-character [a] and [b]. *)
Fixpoint replace (a b : ascii) (s : string) : string :=
  match s with
  | EmptyString => EmptyString
  | String c s' => String (if Ascii.eqb c a then b else c) (replace a b s')
  end.

(** [needle in hay] on two strings. *)
Fixpoint substring_of (needle hay : string) : bool :=
  String.prefix needle hay
  || match hay with
     | EmptyString => false
     | String _ hay' => substring_of needle hay'
     end.

(** [str(n)] for an [int]. *)
Definition str_of_int (n : Z) : string := NilZero.string_of_int (Z.to_int n).

(** *** Containers *)

(** Lookup in a [dict]. *)
Fixpoint assoc (k : string) (m : list (string * json)) : option json :=
  match m with
  | [] => None
  | (k', v) :: m' => if String.eqb k k' then Some v else assoc k m'
  end.

Definition is_str (k : string) (v : json) : bool :=
  match v with
  | JStr s => String.eqb k s
  | _ => false
  end.

(** [k in v], for a string [k]. *)
Definition contains (k : string) (v : json) : result bool :=
  match v with
  | JObj m => Ok (match assoc k m with Some _ => true | None => false end)
  | JArr l => Ok (existsb (is_str k) l)
  | JStr s => Ok (substring_of k s)
  | JNull | JBool _ | JInt _ => Raise TypeError
  end.

(** [v[k]], for a string [k]. *)
Definition getitem (v : json) (k : string) : result json :=
  match v with
  | JObj m => match assoc k m with
              | Some x => Ok x
              | None => Raise KeyError
              end
  | _ => Raise TypeError
  end.

(** [v[0]] *)
Definition getitem0 (v : json) : result json :=
  match v with
  | JArr [] => Raise IndexError
  | JArr (x :: _) => Ok x
  | JStr EmptyString => Raise IndexError
  | JStr (String c _) => Ok (JStr (String c EmptyString))
  | JObj _ => Raise KeyError
  | JNull | JBool _ | JInt _ => Raise TypeError
  end.

(** [v.get(k, dflt)]: only a [dict] has the method. *)
Definition get (v : json) (k : string) (dflt : json) : result json :=
  match v with
  | JObj m => Ok (match assoc k m with Some x => x | None => dflt end)
  | _ => Raise AttributeError
  end.

Definition chars (s : string) : list json :=
  map (fun c => JStr (String c EmptyString)) (list_ascii_of_string s).

(** The elements [for x in v] runs through. *)
Definition iter (v : json) : result (list json) :=
  match v with
  | JArr l => Ok l
  | JStr s => Ok (chars s)
  | JObj m => Ok (map (fun kv => JStr (fst kv)) m)
  | JNull | JBool _ | JInt _ => Raise TypeError
  end.

(** [v + 1] *)
Definition add1 (v : json) : result Z :=
  match v with
  | JInt n => Ok (n + 1)
  | JBool b => Ok ((if b then 1 else 0) + 1)
  | _ => Raise TypeError
  end.

(** [list(range(start, stop, step))] *)
Definition range (start stop step : Z) : result (list Z) :=
  if step =? 0 then Raise ValueError
  else
    let len :=
      if 0 <? step then (stop - start + step - 1) / step
      else (start - stop - step - 1) / (- step) in
    Ok (map (fun i => start + Z.of_nat i * step) (seq 0 (Z.to_nat len))).

Section Str.
(** [repr] of a list or a dict is left to the caller. *)
Variable repr : json -> string.

(** [str(v)], which is what an f-string field [{v}] expands to. *)
Definition str (v : json) : string :=
  match v with
  | JStr s => s
  | JInt n => str_of_int n
  | JBool true => "True"
  | JBool false => "False"
  | JNull => "None"
  | JArr _ | JObj _ => repr v
  end.
End Str.

End Py.

(* ================================================================= *)
(** ** The outside world and the effects of a run *)

Module World.
Import Py.

(** What a [requests] call comes to: it raises a
    [requests.exceptions.RequestException] (time-out, network error, a
    non-2xx status at [raise_for_status()], a body that is not JSON), or
    [response.json()] returns a value. *)
Inductive reply : Type :=
| RequestException
| Response (data : json).

(** What the program does to the outside world, in order. *)
Inductive event : Type :=
| ReadFile (path : string)
| HttpPost (url : string) (headers payload : json) (timeout : Z)
| HttpGet (url : string) (params : json) (timeout : Z)
| Sleep (seconds : Z)
| OpenWrite (filename : string)   (* the call [open(filename, "w")] *)
| JsonDump (filename : string) (value : json) (indent : Z)
| CsvRow (filename : string) (row : list json)
| Print (text : string).

(** A computation returns or raises, and leaves a trace of events. *)
Definition M (A : Type) : Type := result A * list event.

Definition ret {A} (a : A) : M A := (Ok a, []).

Definition raise {A} (e : exn) : M A := (Raise e, []).

Definition bind {A B} (m : M A) (f : A -> M B) : M B :=
  match m with
  | (Ok a, t) => let (r, t') := f a in (r, (t ++ t')%list)
  | (Raise e, t) => (Raise e, t)
  end.

Definition emit (e : event) : M unit := (Ok tt, [e]).

Definition lift {A} (r : result A) : M A := (r, []).

Definition outcome {A} (m : M A) : result A := fst m.
Definition trace {A} (m : M A) : list event := snd m.

(** The status the interpreter exits with. *)
Definition exit_status (r : result unit) : Z :=
  match r with
  | Ok _ => 0
  | Raise (SystemExit code) => code
  | Raise _ => 1
  end.

(** The [start] parameter of each search request of a trace. *)
Definition start_of (e : event) : option json :=
  match e with
  | HttpGet _ (JObj params) _ => assoc "start" params
  | _ => None
  end.

Fixpoint starts (t : list event) : list json :=
  match t with
  | [] => []
  | e :: t' => match start_of e with
               | Some s => s :: starts t'
               | None => starts t'
               end
  end.

Definition is_request (e : event) : bool :=
  match e with
  | HttpPost _ _ _ _ | HttpGet _ _ _ => true
  | _ => false
  end.

End World.

Declare Scope py_scope.
Delimit Scope py_scope with py.
Notation "x <- m ;; k" := (World.bind m (fun x => k))
  (at level 61, m at next level, right associativity) : py_scope.
Notation "m ;; k" := (World.bind m (fun _ => k))
  (at level 61, right associativity) : py_scope.

(* ================================================================= *)
(** ** The program *)

Module ThreatScrape.
Import Py World.
Local Open Scope py_scope.

Definition newline : string := String "010"%char EmptyString.

Definition gemini_endpoint : string :=
  "https://generativelanguage.googleapis.com/v1beta/models/gemini-1.5-flash:generateContent?key=".

Definition base_url : string := "https://www.googleapis.com/customsearch/v1".

Section Program.

(** The file system: [None] when [open] raises [FileNotFoundError] or
    [json.load] raises [JSONDecodeError]. *)
Variable read_config : string -> option json.

(** Whether [open(filename, "w")] succeeds; when it does not it raises an
    [OSError] ([FileNotFoundError] for a name in a directory that does not
    exist, [PermissionError], [IsADirectoryError], ...). *)
Variable open_write : string -> bool.

(** The two endpoints: [requests.post(url, headers, json)] and
    [requests.get(url, params)]. *)
Variable http_post : string -> json -> json -> reply.
Variable http_get : string -> json -> reply.

(** Python's [repr] of lists and dicts, see [Py.str]. *)
Variable repr : json -> string.

(** [load_config(config_path)] *)
Definition load_config (config_path : string) : M json :=
  emit (ReadFile config_path) ;;
  match read_config config_path with
  | Some config => ret config
  | None => raise (SystemExit 1)
  end.

(** [[term.strip() for term in related_text.split(",") if term]] *)
Definition parse_keywords (related_text : string) : list string :=
  map strip (filter nonempty (split "," related_text)).

(** The locals [gemini_url], [prompt], [headers] and [payload] of
    [get_related_keywords]. *)
Definition gemini_url (gemini_api_key : json) : string :=
  gemini_endpoint ++ str repr gemini_api_key.

Definition prompt (search_term : string) : string :=
  "Provide related APT or threat actor names for: " ++ search_term
  ++ ". Include alternative names and aliases, separated by commas.".

Definition headers : json :=
  JObj [("Content-Type", JStr "application/json")].

Definition payload (search_term : string) : json :=
  JObj [("contents",
         JArr [JObj [("parts",
                      JArr [JObj [("text", JStr (prompt search_term))]])]])].

(** [get_related_keywords(search_term, gemini_api_key)] *)
Definition get_related_keywords (search_term : string) (gemini_api_key : json)
  : M (list string) :=
  if negb (truthy gemini_api_key) then ret [search_term]
  else
    emit (HttpPost (gemini_url gemini_api_key) headers
            (payload search_term) 10) ;;
    match http_post (gemini_url gemini_api_key) headers
            (payload search_term) with
    | RequestException => ret [search_term]
    | Response data =>
        has_candidates <- lift (contains "candidates" data) ;;
        has_parts <-
          (if has_candidates : bool then
             candidates <- lift (getitem data "candidates") ;;
             candidate <- lift (getitem0 candidates) ;;
             content <- lift (getitem candidate "content") ;;
             lift (contains "parts" content)
           else ret false) ;;
        if has_parts : bool then
          candidates <- lift (getitem data "candidates") ;;
          candidate <- lift (getitem0 candidates) ;;
          content <- lift (getitem candidate "content") ;;
          parts <- lift (getitem content "parts") ;;
          part <- lift (getitem0 parts) ;;
          related_text <- lift (getitem part "text") ;;
          match related_text with
          | JStr text => ret (parse_keywords text)
          | _ => raise AttributeError
          end
        else ret [search_term]
    end.

Definition quoted (kw : string) : string :=
  String dquote kw ++ String dquote EmptyString.

(** [build_google_dorking_query(base_keyword, config)] *)
Definition build_google_dorking_query (base_keyword : string) (config : json)
  : M string :=
  gemini_api_key <- lift (get config "GEMINI_API_KEY" JNull) ;;
  related_keywords <- get_related_keywords base_keyword gemini_api_key ;;
  let query_terms := join " OR " (map quoted related_keywords) in
  excluded_sites <- lift (get config "EXCLUDED_SITES" (JArr [])) ;;
  sites <- lift (iter excluded_sites) ;;
  let exclusion_query :=
    join " " (map (fun site => "-site:" ++ str repr site) sites) in
  intext_keywords <- lift (get config "INTEXT_KEYWORDS" (JArr [])) ;;
  kws <- lift (iter intext_keywords) ;;
  let intext_query :=
    join " " (map (fun kw => "intext:" ++ str repr kw) kws) in
  ret ("(" ++ query_terms ++ ") " ++ exclusion_query ++ " " ++ intext_query).

(** The [params] dict of one search request. *)
Definition search_params (google_api_key cx : json) (query : string)
    (results_per_page start : Z) : json :=
  JObj [("key", google_api_key); ("cx", cx); ("q", JStr query);
        ("num", JInt results_per_page); ("start", JInt start)].

(** The body of the [for start in range(...)] loop of [google_search],
    run over the offsets the range yields; [results] is the accumulator. *)
Fixpoint fetch_pages (google_api_key cx : json) (query : string)
    (results_per_page : Z) (offsets : list Z) (results : list json)
  : M (list json) :=
  match offsets with
  | [] => ret results
  | start :: rest =>
      let params :=
        search_params google_api_key cx query results_per_page start in
      emit (HttpGet base_url params 10) ;;
      match http_get base_url params with
      | RequestException => ret results
      | Response data =>
          has_items <- lift (contains "items" data) ;;
          results' <-
            (if has_items : bool then
               items <- lift (getitem data "items") ;;
               new <- lift (iter items) ;;
               ret (results ++ new)%list
             else ret results) ;;
          emit (Sleep 1) ;;
          fetch_pages google_api_key cx query results_per_page rest results'
      end
  end.

(** [google_search(query, config, results_per_page)] *)
Definition google_search (query : string) (config : json)
    (results_per_page : Z) : M (list json) :=
  google_api_key <- lift (get config "GOOGLE_API_KEY" JNull) ;;
  cx <- lift (get config "CX" JNull) ;;
  total_results <- lift (get config "TOTAL_RESULTS" (JInt 50)) ;;
  if negb (truthy google_api_key) || negb (truthy cx) then ret []
  else
    stop <- lift (add1 total_results) ;;
    offsets <- lift (range 1 stop results_per_page) ;;
    fetch_pages google_api_key cx query results_per_page offsets [].

(** [with open(filename, "w", ...) as f:] up to the body. *)
Definition open_w (filename : string) : M unit :=
  emit (OpenWrite filename) ;;
  if open_write filename then ret tt else raise OSError.

(** [save_results_to_json(results, filename)] *)
Definition save_results_to_json (results : list json) (filename : string)
  : M unit :=
  open_w filename ;;
  emit (JsonDump filename (JArr results) 4).

Fixpoint write_rows (filename : string) (results : list json) : M unit :=
  match results with
  | [] => ret tt
  | item :: rest =>
      title <- lift (get item "title" (JStr "N/A")) ;;
      link <- lift (get item "link" (JStr "N/A")) ;;
      emit (CsvRow filename [title; link]) ;;
      write_rows filename rest
  end.

(** [save_results_to_csv(results, filename)] *)
Definition save_results_to_csv (results : list json) (filename : string)
  : M unit :=
  open_w filename ;;
  emit (CsvRow filename [JStr "Title"; JStr "Link"]) ;;
  write_rows filename results.

(** The final [for index, item in enumerate(search_results, start=1)]. *)
Fixpoint print_results (index : Z) (results : list json) : M unit :=
  match results with
  | [] => ret tt
  | item :: rest =>
      title <- lift (get item "title" JNull) ;;
      link <- lift (get item "link" JNull) ;;
      emit (Print (str_of_int index ++ ". " ++ str repr title ++ newline
                   ++ str repr link ++ newline)) ;;
      print_results (index + 1) rest
  end.

(** [main()], after [parse_arguments()] has produced the two strings. *)
Definition main (arg_search_keyword arg_config : string) : M unit :=
  let search_keyword := strip arg_search_keyword in
  let config_path := strip arg_config in
  if negb (nonempty search_keyword) then raise (SystemExit 1)
  else
    config <- load_config config_path ;;
    refined_query <- build_google_dorking_query search_keyword config ;;
    search_results <- google_search refined_query config 10 ;;
    if truthy (JArr search_results) then
      let json_filename :=
        replace " " "_" search_keyword ++ "_search_results.json" in
      let csv_filename :=
        replace " " "_" search_keyword ++ "_search_results.csv" in
      save_results_to_json search_results json_filename ;;
      save_results_to_csv search_results csv_filename ;;
      print_results 1 search_results
    else ret tt.

End Program.

End ThreatScrape.

(* ================================================================= *)
(** ** Vocabulary of the specification *)

Module Spec.
Import Py World ThreatScrape.

(** The items a well-formed search response carries: the response is an
    object whose ["items"], when present, is a list. *)
Definition page_items (data : json) : option (list json) :=
  match data with
  | JObj d => match assoc "items" d with
              | None => Some []
              | Some (JArr l) => Some l
              | Some _ => None
              end
  | _ => None
  end.

(** The value [config.get(key)] yields for a credential. *)
Definition credential (m : list (string * json)) (key : string) : json :=
  match assoc key m with
  | Some v => v
  | None => JNull
  end.

(** A credential that is absent from the configuration, or empty. *)
Definition missing (m : list (string * json)) (key : string) : Prop :=
  assoc key m = None \/ assoc key m = Some JNull
  \/ assoc key m = Some (JStr EmptyString).

(** The configuration holds the list of strings [l] under [key], an absent
    key standing for the empty list. *)
Definition holds_list (m : list (string * json)) (key : string)
    (l : list string) : Prop :=
  assoc key m = Some (JArr (map JStr l)) \/ (assoc key m = None /\ l = []).

(** The configured total-results cap, 50 when the key is absent. *)
Definition holds_cap (m : list (string * json)) (cap : Z) : Prop :=
  assoc "TOTAL_RESULTS" m = Some (JInt cap)
  \/ (assoc "TOTAL_RESULTS" m = None /\ cap = 50).

(** The start offsets section 4.4 words: 1, 1 + pageSize, ... *)
Definition offset (page_size : Z) (k : nat) : Z := 1 + Z.of_nat k * page_size.

(** The number of pages for a cap: the cap divided by the page size,
    rounded up (none for a cap below 1). *)
Definition page_count (cap page_size : Z) : nat :=
  Z.to_nat ((cap + page_size - 1) / page_size).

Section Pages.
Variable http_get : string -> json -> reply.
Variables (google_api_key cx : json) (query : string) (page_size : Z).

(** The request at offset [start] succeeds with a well-formed response
    carrying the items [new]. *)
Definition answers (start : Z) (new : list json) : Prop :=
  exists data,
    http_get base_url
      (search_params google_api_key cx query page_size start)
    = Response data
    /\ page_items data = Some new.

(** What a successful page leaves in the trace. *)
Definition page_events (start : Z) : list event :=
  [HttpGet base_url
     (search_params google_api_key cx query page_size start) 10;
   Sleep 1].
End Pages.

(** The parts, with [sep] between each two neighbours. *)
Fixpoint separated (sep : string) (parts : list string) : string :=
  match parts with
  | [] => EmptyString
  | part :: rest =>
      match rest with
      | [] => part
      | _ :: _ => part ++ sep ++ separated sep rest
      end
  end.

(** A term between two double-quote characters (code point 34). *)
Definition in_quotes (term : string) : string :=
  String "034"%char (term ++ String "034"%char EmptyString).

(** The query as section 4.3 words it: the quoted expansion terms joined
    by OR inside parentheses, the exclusions, the required terms, one space
    between the three groups. *)
Definition query_of (expansion exclusions intext : list string) : string :=
  let group1 := "(" ++ separated " OR " (map in_quotes expansion) ++ ")" in
  let group2 :=
    separated " " (map (fun site => "-site:" ++ site) exclusions) in
  let group3 := separated " " (map (fun kw => "intext:" ++ kw) intext) in
  group1 ++ " " ++ group2 ++ " " ++ group3.

(** A field of a result item, or the literal N/A when the item lacks it. *)
Definition field_or_na (item : list (string * json)) (key : string) : json :=
  match assoc key item with
  | Some v => v
  | None => JStr "N/A"
  end.

(** The nested text field of a generative-API response of the expected
    shape: the ["text"] of the first part of the content of the first
    candidate. *)
Definition nested_text (data : json) : option json :=
  match data with
  | JObj d =>
      match assoc "candidates" d with
      | Some (JArr (JObj candidate :: _)) =>
          match assoc "content" candidate with
          | Some (JObj content) =>
              match assoc "parts" content with
              | Some (JArr (JObj part :: _)) => assoc "text" part
              | _ => None
              end
          | _ => None
          end
      | _ => None
      end
  | _ => None
  end.

(** The keyword list as section 4.2 words it: split on commas, trim each
    fragment, drop the empty ones. *)
Definition trimmed_fragments (text : string) : list string :=
  filter nonempty (map strip (split "," text)).

(** A generative-API response whose nested text field is [text]. *)
Definition gemini_body (text : json) : json :=
  JObj [("candidates",
         JArr [JObj [("content",
                      JObj [("parts", JArr [JObj [("text", text)]])])]])].

End Spec.

(* ================================================================= *)
(** ** Concrete worlds *)

Module Examples.
Import Py World ThreatScrape Spec.

Definition no_repr (v : json) : string := EmptyString.

Definition no_config (path : string) : option json := None.

Definition result_item : json :=
  JObj [("title", JStr "APT28 report"); ("link", JStr "https://example.org/apt28")].

(** A configuration with both search credentials and a cap of 25. *)
Definition config25 : list (string * json) :=
  [("GOOGLE_API_KEY", JStr "g-key"); ("CX", JStr "engine");
   ("TOTAL_RESULTS", JInt 25)].

(** A search endpoint whose every page carries ten items. *)
Definition full_pages (url : string) (params : json) : reply :=
  Response (JObj [("items", JArr (repeat result_item 10))]).

(** A search endpoint that answers the first page and fails from the
    second page (start offset 11) on. *)
Definition second_page_fails (url : string) (params : json) : reply :=
  match params with
  | JObj p => match assoc "start" p with
              | Some (JInt 1) => Response (JObj [("items", JArr [result_item])])
              | _ => RequestException
              end
  | _ => RequestException
  end.

(** A configuration with the generative-API key, one excluded site and
    one required term. *)
Definition config_query : list (string * json) :=
  [("GEMINI_API_KEY", JStr "gm-key");
   ("EXCLUDED_SITES", JArr [JStr "a.com"]);
   ("INTEXT_KEYWORDS", JArr [JStr "malware"])].

(** A generative endpoint that answers every prompt with [text]. *)
Definition says (text : string) (url : string) (headers payload : json)
  : reply :=
  Response (gemini_body (JStr text)).

(** A generative endpoint whose response has an empty candidate list. *)
Definition no_candidate (url : string) (headers payload : json) : reply :=
  Response (JObj [("candidates", JArr [])]).

(** A generative endpoint whose only candidate was blocked and carries
    no content. *)
Definition blocked_candidate (url : string) (headers payload : json)
  : reply :=
  Response (JObj [("candidates",
                   JArr [JObj [("finishReason", JStr "SAFETY");
                               ("index", JInt 0)]])]).

(** A generative endpoint that cannot be reached. *)
Definition unreachable (url : string) (headers payload : json) : reply :=
  RequestException.

End Examples.

(* ================================================================= *)
(** ** Vocabulary for whole runs *)

Module Shape.
Import Py World ThreatScrape Spec.

(** Values that can neither be iterated nor searched with [in]. *)
Definition scalar (v : json) : bool :=
  match v with
  | JNull | JBool _ | JInt _ => true
  | _ => false
  end.

(** Values [v + 1] accepts. *)
Definition is_number (v : json) : bool :=
  match v with
  | JInt _ | JBool _ => true
  | _ => false
  end.

(** A search response the loop cannot take items from: a scalar body, or
    an object whose ["items"] is a scalar. *)
Definition unusable_page (data : json) : bool :=
  match data with
  | JObj d => match assoc "items" d with
              | Some v => scalar v
              | None => false
              end
  | _ => scalar data
  end.

Definition is_object (v : json) : bool :=
  match v with
  | JObj _ => true
  | _ => false
  end.

(** The one-character strings a [for] loop over a string runs through. *)
Definition letters (s : string) : list string :=
  map (fun c => String c EmptyString) (list_ascii_of_string s).

Definition has_char (c : ascii) (s : string) : bool :=
  existsb (Ascii.eqb c) (list_ascii_of_string s).

(** Empty, or whitespace only. *)
Definition blank (s : string) : bool :=
  forallb isspace (list_ascii_of_string s).

(** [enumerate(l, start)] *)
Fixpoint enumerate {A : Type} (start : Z) (l : list A) : list (Z * A) :=
  match l with
  | [] => []
  | x :: l' => (start, x) :: enumerate (start + 1) l'
  end.

(** A field of a result item, or [None] when the item lacks it. *)
Definition field_or_none (item : list (string * json)) (key : string) : json :=
  match assoc key item with
  | Some v => v
  | None => JNull
  end.

(** How a value reads on the console: a string as it is, the missing
    value as the word None, a number in decimal. *)
Definition shown (repr : json -> string) (v : json) : string :=
  match v with
  | JStr s => s
  | JNull => "None"
  | JBool b => if b then "True" else "False"
  | JInt n => NilZero.string_of_int (Z.to_int n)
  | JArr _ | JObj _ => repr v
  end.

(** The console entry of a numbered item: the number, a full stop and a
    space, the title, a line feed, the link, a line feed. *)
Definition printed (repr : json -> string)
    (entry : Z * list (string * json)) : event :=
  Print (NilZero.string_of_int (Z.to_int (fst entry)) ++ ". "
         ++ shown repr (field_or_none (snd entry) "title")
         ++ String "010"%char
              (shown repr (field_or_none (snd entry) "link")
               ++ String "010"%char EmptyString)).

(** The table row of an item. *)
Definition csv_row (filename : string) (item : list (string * json)) : event :=
  CsvRow filename [field_or_na item "title"; field_or_na item "link"].

(** The keyword with an underscore in the place of every space. *)
Fixpoint underscored (s : string) : string :=
  match s with
  | EmptyString => EmptyString
  | String c s' =>
      String (if Ascii.eqb c " " then "_"%char else c) (underscored s')
  end.

(** The names of the two output files for a search keyword. *)
Definition json_name (search_keyword : string) : string :=
  underscored search_keyword ++ "_search_results.json".

Definition csv_name (search_keyword : string) : string :=
  underscored search_keyword ++ "_search_results.csv".


(** Every event of the run satisfies [P]. *)
Definition confined {A : Type} (P : event -> bool) (m : M A) : Prop :=
  forallb P (trace m) = true.




End Shape.

(* ================================================================= *)
(** ** More concrete worlds *)

Module Cases.
Import Py World ThreatScrape Spec Examples.

(** A complete configuration. *)
Definition config_full : list (string * json) :=
  [("GEMINI_API_KEY", JStr "gm-key");
   ("GOOGLE_API_KEY", JStr "g-key"); ("CX", JStr "engine");
   ("EXCLUDED_SITES", JArr [JStr "a.com"]);
   ("INTEXT_KEYWORDS", JArr [JStr "malware"]);
   ("TOTAL_RESULTS", JInt 10)].

Definition reads (config : list (string * json)) (path : string)
  : option json :=
  Some (JObj config).

(** A search endpoint whose single page holds two items, the second
    without a link. *)
Definition two_items : list (list (string * json)) :=
  [[("title", JStr "APT28 report"); ("link", JStr "https://example.org/apt28")];
   [("title", JStr "Fancy Bear")]].

Definition one_page (url : string) (params : json) : reply :=
  Response (JObj [("items", JArr (map JObj two_items))]).

(** A search endpoint whose response holds a null item list. *)
Definition null_items (url : string) (params : json) : reply :=
  Response (JObj [("items", JNull)]).

(** A search endpoint that cannot be reached. *)
Definition search_down (url : string) (params : json) : reply :=
  RequestException.

(** A file system in which every file can be opened for writing. *)
Definition any_file (filename : string) : bool := true.

(** A working directory without sub-directories: a name with a slash
    cannot be opened. *)
Definition flat_directory (filename : string) : bool :=
  negb (existsb (Ascii.eqb "/") (list_ascii_of_string filename)).

End Cases.

(* ================================================================= *)
(** ** Properties *)

Import Py World ThreatScrape Spec Examples.
Local Open Scope py_scope.

(** *** The effect monad *)

Lemma bind_ok {A B} (a : A) (t : list event) (f : A -> M B) :
  bind (Ok a, t) f = (outcome (f a), (t ++ trace (f a))%list).
Proof. unfold bind, outcome, trace. destruct (f a); reflexivity. Qed.

Lemma bind_lift_ok {A B} (a : A) (f : A -> M B) : bind (lift (Ok a)) f = f a.
Proof. unfold lift. rewrite bind_ok. destruct (f a); reflexivity. Qed.

Lemma bind_emit {B} (e : event) (f : unit -> M B) :
  bind (emit e) f = (outcome (f tt), e :: trace (f tt)).
Proof. unfold emit. rewrite bind_ok. reflexivity. Qed.

(** *** Page arithmetic *)

Example range_up : range 1 26 10 = Ok [1; 11; 21].
Proof. reflexivity. Qed.

Example range_exact : range 1 21 10 = Ok [1; 11].
Proof. reflexivity. Qed.

Example range_empty : range 1 0 10 = Ok [].
Proof. reflexivity. Qed.

Example range_down : range 5 0 (-2) = Ok [5; 3; 1].
Proof. reflexivity. Qed.

Lemma range_offsets (cap page_size : Z) :
  0 < page_size ->
  range 1 (cap + 1) page_size
  = Ok (map (offset page_size) (seq 0 (page_count cap page_size))).
Proof.
  intros Hps. unfold range, page_count.
  destruct (Z.eqb_spec page_size 0) as [->|_]; [lia|].
  destruct (Z.ltb_spec 0 page_size) as [_|]; [|lia].
  replace (cap + 1 - 1 + page_size - 1) with (cap + page_size - 1) by lia.
  reflexivity.
Qed.

(** Page [k] is requested exactly when its offset does not pass the cap. *)
Lemma page_count_spec (cap page_size : Z) (k : nat) :
  0 < page_size ->
  (k < page_count cap page_size)%nat <-> offset page_size k <= cap.
Proof.
  intros Hps. unfold page_count, offset.
  set (q := (cap + page_size - 1) / page_size).
  assert (Hq : page_size * q <= cap + page_size - 1 < page_size * (q + 1)).
  { pose proof (Z.mul_div_le (cap + page_size - 1) page_size Hps).
    pose proof (Z.mul_succ_div_gt (cap + page_size - 1) page_size Hps).
    fold q in H, H0. lia. }
  split; intros H.
  - assert (Z.of_nat k < q) by lia. nia.
  - assert (Z.of_nat k < q) by nia. lia.
Qed.

(** The pages together hold fewer than cap + pageSize items. *)
Lemma page_count_bound (cap page_size : Z) :
  0 < page_size ->
  page_size * Z.of_nat (page_count cap page_size) < Z.max cap 0 + page_size.
Proof.
  intros Hps. unfold page_count.
  set (q := (cap + page_size - 1) / page_size).
  pose proof (Z.mul_div_le (cap + page_size - 1) page_size Hps) as H.
  fold q in H.
  destruct (Z.le_gt_cases 0 q).
  - rewrite Z2Nat.id by assumption. lia.
  - replace (Z.to_nat q) with 0%nat by lia. lia.
Qed.

Lemma page_count_exact (cap page_size : Z) :
  0 < page_size -> 0 <= cap -> (page_size | cap) ->
  page_size * Z.of_nat (page_count cap page_size) = cap.
Proof.
  intros Hps Hcap [q ->]. unfold page_count.
  assert (Hq : 0 <= q) by nia.
  replace ((q * page_size + page_size - 1) / page_size) with q.
  - rewrite Z2Nat.id by assumption. lia.
  - apply Z.div_unique with (r := page_size - 1); lia.
Qed.

(** *** The search paginator *)

Section Paginator.

Variable http_get : string -> json -> reply.
Variables (google_api_key cx : json) (query : string) (page_size : Z).

Lemma extend_items (data : json) (new results : list json)
    (k : list json -> M (list json)) :
  page_items data = Some new ->
  (has_items <- lift (contains "items" data) ;;
   results' <-
     (if has_items : bool then
        items <- lift (getitem data "items") ;;
        new <- lift (iter items) ;;
        ret (results ++ new)%list
      else ret results) ;;
   k results') = k (results ++ new)%list.
Proof.
  unfold page_items. intros H.
  destruct data as [ | | | | |d]; try discriminate.
  cbn [contains getitem].
  destruct (assoc "items" d) as [v|] eqn:E.
  - destruct v; try discriminate. injection H as ->.
    cbn. now destruct (k (results ++ new)%list).
  - injection H as <-. rewrite app_nil_r.
    cbn. now destruct (k results).
Qed.

Local Abbreviation fetch :=
  (fetch_pages http_get google_api_key cx query page_size).
Local Abbreviation answers' :=
  (answers http_get google_api_key cx query page_size).
Local Abbreviation events := (page_events google_api_key cx query page_size).
Local Abbreviation params := (search_params google_api_key cx query page_size).

(** While the requests succeed, the loop appends the pages in order and
    issues one request per offset. *)
Lemma fetch_pages_all (offsets : list Z) :
  forall (news : list (list json)) (results : list json),
    Forall2 answers' offsets news ->
    fetch offsets results
    = (Ok (results ++ concat news)%list, flat_map events offsets).
Proof.
  induction offsets as [|start rest IH]; intros news results H;
    inversion H as [|? new ? news' [data [Hget Hitems]] Hrest]; subst.
  - cbn. now rewrite app_nil_r.
  - cbn [fetch_pages]. rewrite bind_emit, Hget.
    rewrite (extend_items data new results
               (fun r => emit (Sleep 1) ;;
                         fetch_pages http_get google_api_key cx query
                           page_size rest r) Hitems).
    rewrite bind_emit, (IH news' (results ++ new)%list Hrest).
    cbn. now rewrite <- app_assoc.
Qed.

(** A failing request ends the loop: the pages before it are kept, the
    offsets after it are never requested. *)
Lemma fetch_pages_break (before : list Z) :
  forall (news : list (list json)) (failing : Z) (after : list Z)
         (results : list json),
    Forall2 answers' before news ->
    http_get base_url (params failing) = RequestException ->
    fetch (before ++ failing :: after) results
    = (Ok (results ++ concat news)%list,
       (flat_map events before ++ [HttpGet base_url (params failing) 10])%list).
Proof.
  induction before as [|start rest IH];
    intros news failing after results H Hfail;
    inversion H as [|? new ? news' [data [Hget Hitems]] Hrest]; subst.
  - cbn [fetch_pages app]. rewrite bind_emit.
    rewrite Hfail. cbn. now rewrite app_nil_r.
  - cbn [fetch_pages app]. rewrite bind_emit, Hget.
    rewrite (extend_items data new results
               (fun r => emit (Sleep 1) ;;
                         fetch_pages http_get google_api_key cx query
                           page_size (rest ++ failing :: after) r) Hitems).
    rewrite bind_emit,
      (IH news' failing after (results ++ new)%list Hrest Hfail).
    cbn. now rewrite <- app_assoc.
Qed.

(** Whatever the endpoint answers, as long as its responses are well
    formed and hold at most [bound] items each, the loop returns, with
    at most [bound] more items per offset. *)
Lemma fetch_pages_bounded (bound : Z) (offsets : list Z) :
  0 <= bound ->
  (forall url p data,
      http_get url p = Response data ->
      exists new, page_items data = Some new
                  /\ Z.of_nat (length new) <= bound) ->
  forall results,
  exists results',
    outcome (fetch offsets results) = Ok results'
    /\ Z.of_nat (length results')
       <= Z.of_nat (length results) + bound * Z.of_nat (length offsets).
Proof.
  intros Hbound Hpages.
  induction offsets as [|start rest IH]; intros results.
  - exists results. cbn. split; [reflexivity|lia].
  - cbn [fetch_pages]. rewrite bind_emit.
    destruct (http_get base_url _) as [|data] eqn:Hget.
    + exists results. cbn [outcome ret fst]. split; [reflexivity|].
      cbn [length]. nia.
    + destruct (Hpages _ _ _ Hget) as [new [Hitems Hlen]].
      rewrite (extend_items data new results
                 (fun r => emit (Sleep 1) ;;
                         fetch_pages http_get google_api_key cx query
                           page_size rest r) Hitems).
      rewrite bind_emit. cbn [outcome fst].
      destruct (IH (results ++ new)%list) as [results' [Hout Hle]].
      exists results'. split; [exact Hout|].
      rewrite length_app in Hle. cbn [length]. nia.
Qed.

End Paginator.

Lemma starts_app (t1 t2 : list event) :
  starts (t1 ++ t2) = (starts t1 ++ starts t2)%list.
Proof.
  induction t1 as [|e t1 IH]; [reflexivity|].
  cbn. destruct (start_of e); cbn; now rewrite IH.
Qed.

Lemma starts_pages (key cx : json) (query : string) (page_size : Z)
    (offsets : list Z) :
  starts (flat_map (page_events key cx query page_size) offsets)
  = map JInt offsets.
Proof.
  induction offsets as [|start rest IH]; [reflexivity|].
  cbn [flat_map page_events app starts start_of search_params assoc].
  cbn. now rewrite IH.
Qed.

Lemma requests_pages (key cx : json) (query : string) (page_size : Z)
    (offsets : list Z) :
  length (filter is_request
            (flat_map (page_events key cx query page_size) offsets))
  = length offsets.
Proof.
  induction offsets as [|start rest IH]; [reflexivity|].
  cbn. now rewrite IH.
Qed.

(** With both credentials present, [google_search] is its loop over the
    range of offsets. *)
Lemma google_search_loop (http_get : string -> json -> reply)
    (query : string) (m : list (string * json)) (cap page_size : Z) :
  truthy (credential m "GOOGLE_API_KEY") = true ->
  truthy (credential m "CX") = true ->
  holds_cap m cap ->
  google_search http_get query (JObj m) page_size
  = (offsets <- lift (range 1 (cap + 1) page_size) ;;
     fetch_pages http_get (credential m "GOOGLE_API_KEY") (credential m "CX")
       query page_size offsets []).
Proof.
  intros Hkey Hcx Hcap. unfold google_search, get.
  rewrite !bind_lift_ok. fold (credential m "GOOGLE_API_KEY").
  fold (credential m "CX"). rewrite Hkey, Hcx. cbn [negb orb].
  destruct Hcap as [-> | [-> ->]]; cbn [add1]; now rewrite bind_lift_ok.
Qed.

Lemma google_search_no_credentials (http_get : string -> json -> reply)
    (query : string) (m : list (string * json)) (page_size : Z) :
  truthy (credential m "GOOGLE_API_KEY") && truthy (credential m "CX") = false ->
  google_search http_get query (JObj m) page_size = (Ok [], []).
Proof.
  intros H. unfold google_search, get.
  rewrite !bind_lift_ok. fold (credential m "GOOGLE_API_KEY").
  fold (credential m "CX"). rewrite <- negb_andb, H. reflexivity.
Qed.

Lemma missing_falsy (m : list (string * json)) (key : string) :
  missing m key -> truthy (credential m key) = false.
Proof.
  unfold missing, credential. intros [-> | [-> | ->]]; reflexivity.
Qed.

(** C6. When the search-API key or the engine identifier is absent from
    the configuration, or empty, the search paginator returns the empty
    list and issues no HTTP request (its trace is empty). *)
Theorem C6_missing_credentials_short_circuit
    (http_get : string -> json -> reply) (query : string)
    (m : list (string * json)) (page_size : Z) :
  missing m "GOOGLE_API_KEY" \/ missing m "CX" ->
  google_search http_get query (JObj m) page_size = (Ok [], []).
Proof.
  intros H. apply google_search_no_credentials.
  destruct H as [H | H]; apply missing_falsy in H; rewrite H.
  - reflexivity.
  - apply andb_false_r.
Qed.

Lemma C6_missing_credentials_witness :
  google_search full_pages "q" (JObj [("GOOGLE_API_KEY", JStr "g-key")]) 10
  = (Ok [], []).
Proof.
  apply C6_missing_credentials_short_circuit.
  right. left. reflexivity.
Defined.

(** When every request succeeds, the run is the sequence of the pages of
    all offsets up to the cap. *)
Lemma google_search_all_succeed
    (http_get : string -> json -> reply) (query : string)
    (m : list (string * json)) (cap page_size : Z) :
  0 < page_size ->
  truthy (credential m "GOOGLE_API_KEY") = true ->
  truthy (credential m "CX") = true ->
  holds_cap m cap ->
  (forall url params, exists data new,
      http_get url params = Response data /\ page_items data = Some new) ->
  trace (google_search http_get query (JObj m) page_size)
  = flat_map
      (page_events (credential m "GOOGLE_API_KEY") (credential m "CX")
         query page_size)
      (map (offset page_size) (seq 0 (page_count cap page_size))).
Proof.
  intros Hps Hkey Hcx Hcap Hok.
  rewrite (google_search_loop http_get query m cap page_size Hkey Hcx Hcap).
  rewrite (range_offsets cap page_size Hps), bind_lift_ok.
  set (offsets := map (offset page_size) (seq 0 (page_count cap page_size))).
  assert (Hnews : exists news,
             Forall2 (answers http_get (credential m "GOOGLE_API_KEY")
                        (credential m "CX") query page_size) offsets news).
  { induction offsets as [|start rest [news IH]].
    - exists []. constructor.
    - destruct (Hok base_url
                  (search_params (credential m "GOOGLE_API_KEY")
                     (credential m "CX") query page_size start))
        as [data [new [Hget Hitems]]].
      exists (new :: news). constructor; [|exact IH].
      exists data. split; assumption. }
  destruct Hnews as [news Hnews].
  now rewrite (fetch_pages_all _ _ _ _ _ offsets news [] Hnews).
Qed.

(** C4. With both credentials present, a positive page size and every
    request succeeding, the search paginator issues its requests at the
    start offsets 1, 1 + pageSize, 1 + 2 * pageSize, ..., one request for
    each of these offsets that is at most the cap and no other. *)
Theorem C4_start_offsets
    (http_get : string -> json -> reply) (query : string)
    (m : list (string * json)) (cap page_size : Z) :
  0 < page_size ->
  truthy (credential m "GOOGLE_API_KEY") = true ->
  truthy (credential m "CX") = true ->
  holds_cap m cap ->
  (forall url params, exists data new,
      http_get url params = Response data /\ page_items data = Some new) ->
  exists n : nat,
    starts (trace (google_search http_get query (JObj m) page_size))
    = map (fun k => JInt (offset page_size k)) (seq 0 n)
    /\ length (filter is_request
                 (trace (google_search http_get query (JObj m) page_size)))
       = n
    /\ forall k : nat, (k < n)%nat <-> offset page_size k <= cap.
Proof.
  intros Hps Hkey Hcx Hcap Hok.
  exists (page_count cap page_size).
  rewrite (google_search_all_succeed http_get query m cap page_size
             Hps Hkey Hcx Hcap Hok).
  rewrite starts_pages, requests_pages, map_map, length_map, length_seq.
  split; [reflexivity|]. split; [reflexivity|].
  intros k. now apply page_count_spec.
Qed.

Lemma C4_start_offsets_witness :
  exists n : nat,
    starts (trace (google_search full_pages "q" (JObj config25) 10))
    = map (fun k => JInt (offset 10 k)) (seq 0 n)
    /\ length (filter is_request
                 (trace (google_search full_pages "q" (JObj config25) 10)))
       = n
    /\ forall k : nat, (k < n)%nat <-> offset 10 k <= 25.
Proof.
  apply (C4_start_offsets full_pages "q" config25 25 10).
  - lia.
  - reflexivity.
  - reflexivity.
  - left. reflexivity.
  - intros url params. eexists. eexists. split; reflexivity.
Defined.

(** Cap 25 and page size 10: exactly three requests, at 1, 11 and 21,
    whatever the (successful) responses hold. *)
Lemma three_requests_for_cap_25
    (http_get : string -> json -> reply) (query : string)
    (m : list (string * json)) :
  truthy (credential m "GOOGLE_API_KEY") = true ->
  truthy (credential m "CX") = true ->
  holds_cap m 25 ->
  (forall url params, exists data new,
      http_get url params = Response data /\ page_items data = Some new) ->
  starts (trace (google_search http_get query (JObj m) 10))
  = [JInt 1; JInt 11; JInt 21]
  /\ length (filter is_request
               (trace (google_search http_get query (JObj m) 10)))
     = 3%nat.
Proof.
  intros Hkey Hcx Hcap Hok.
  rewrite (google_search_all_succeed http_get query m 25 10
             eq_refl Hkey Hcx Hcap Hok).
  rewrite starts_pages, requests_pages. split; reflexivity.
Qed.

(** A page size of zero is refused by [range]: no request is issued. *)
Lemma google_search_zero_page_size
    (http_get : string -> json -> reply) (query : string)
    (m : list (string * json)) (cap : Z) :
  truthy (credential m "GOOGLE_API_KEY") = true ->
  truthy (credential m "CX") = true ->
  holds_cap m cap ->
  google_search http_get query (JObj m) 0 = (Raise ValueError, []).
Proof.
  intros Hkey Hcx Hcap.
  now rewrite (google_search_loop http_get query m cap 0 Hkey Hcx Hcap).
Qed.

(** C5. When some request fails, the search paginator stops at the first
    failing request: the offsets after it are never requested, and the
    result is exactly the items of the pages before it, in page order. *)
Theorem C5_stops_at_first_failure
    (http_get : string -> json -> reply) (query : string)
    (m : list (string * json)) (cap page_size : Z)
    (before after : list Z) (failing : Z) (news : list (list json)) :
  truthy (credential m "GOOGLE_API_KEY") = true ->
  truthy (credential m "CX") = true ->
  holds_cap m cap ->
  range 1 (cap + 1) page_size = Ok (before ++ failing :: after)%list ->
  Forall2 (answers http_get (credential m "GOOGLE_API_KEY")
             (credential m "CX") query page_size) before news ->
  http_get base_url
    (search_params (credential m "GOOGLE_API_KEY") (credential m "CX")
       query page_size failing) = RequestException ->
  outcome (google_search http_get query (JObj m) page_size)
  = Ok (concat news)
  /\ starts (trace (google_search http_get query (JObj m) page_size))
     = map JInt (before ++ [failing])
  /\ length (filter is_request
               (trace (google_search http_get query (JObj m) page_size)))
     = S (length before).
Proof.
  intros Hkey Hcx Hcap Hrange Hbefore Hfail.
  rewrite (google_search_loop http_get query m cap page_size Hkey Hcx Hcap).
  rewrite Hrange, bind_lift_ok.
  rewrite (fetch_pages_break _ _ _ _ _ before news failing after []
             Hbefore Hfail).
  cbn [outcome trace fst snd app].
  rewrite starts_app, starts_pages, filter_app, length_app, requests_pages.
  rewrite map_app. cbn. split; [reflexivity|]. split; [reflexivity|lia].
Qed.

(** A failure on the second page: the first page's item is returned and
    no third request is issued. *)
Lemma C5_stops_at_first_failure_witness :
  outcome (google_search second_page_fails "q" (JObj config25) 10)
  = Ok (concat [[result_item]])
  /\ starts (trace (google_search second_page_fails "q" (JObj config25) 10))
     = map JInt ([1] ++ [11])
  /\ length (filter is_request
               (trace (google_search second_page_fails "q" (JObj config25) 10)))
     = S (length [1]).
Proof.
  apply (C5_stops_at_first_failure second_page_fails "q" config25 25 10
           [1] [21] 11 [[result_item]]).
  - reflexivity.
  - reflexivity.
  - left. reflexivity.
  - reflexivity.
  - constructor; [|constructor]. eexists. split; reflexivity.
  - reflexivity.
Defined.

(** C1 (as amended). When every page response holds at most pageSize
    items, the accumulated ResultSet holds at most pageSize items per
    requested page, that is at most pageSize * ceil(cap / pageSize) items:
    fewer than cap + pageSize, and at most the cap when the page size
    divides it. *)
Theorem C1_result_set_bounded_by_pages
    (http_get : string -> json -> reply) (query : string)
    (m : list (string * json)) (cap page_size : Z) :
  0 < page_size ->
  holds_cap m cap ->
  (forall url params data,
      http_get url params = Response data ->
      exists new, page_items data = Some new
                  /\ Z.of_nat (length new) <= page_size) ->
  exists results,
    outcome (google_search http_get query (JObj m) page_size) = Ok results
    /\ Z.of_nat (length results)
       <= page_size * Z.of_nat (page_count cap page_size)
    /\ Z.of_nat (length results) < Z.max cap 0 + page_size
    /\ (0 <= cap -> (page_size | cap) -> Z.of_nat (length results) <= cap).
Proof.
  intros Hps Hcap Hpages.
  assert (Hgoal : exists results,
             outcome (google_search http_get query (JObj m) page_size)
             = Ok results
             /\ Z.of_nat (length results)
                <= page_size * Z.of_nat (page_count cap page_size)).
  { destruct (truthy (credential m "GOOGLE_API_KEY")
              && truthy (credential m "CX")) eqn:Hcred.
    - apply andb_true_iff in Hcred as [Hkey Hcx].
      rewrite (google_search_loop http_get query m cap page_size
                 Hkey Hcx Hcap).
      rewrite (range_offsets cap page_size Hps), bind_lift_ok.
      destruct (fetch_pages_bounded http_get (credential m "GOOGLE_API_KEY")
                  (credential m "CX") query page_size page_size
                  (map (offset page_size) (seq 0 (page_count cap page_size)))
                  (Z.lt_le_incl _ _ Hps) Hpages [])
        as [results [Hout Hlen]].
      exists results. split; [exact Hout|].
      rewrite length_map, length_seq in Hlen. exact Hlen.
    - rewrite (google_search_no_credentials http_get query m page_size Hcred).
      exists []. split; [reflexivity|]. cbn [length]. nia. }
  destruct Hgoal as [results [Hout Hlen]].
  exists results. split; [exact Hout|]. split; [exact Hlen|].
  pose proof (page_count_bound cap page_size Hps) as Hlt.
  split; [lia|]. intros Hnn Hdiv.
  rewrite (page_count_exact cap page_size Hps Hnn Hdiv) in Hlen. exact Hlen.
Qed.

Lemma C1_result_set_bounded_witness :
  exists results,
    outcome (google_search full_pages "q" (JObj config25) 10) = Ok results
    /\ Z.of_nat (length results) <= 10 * Z.of_nat (page_count 25 10)
    /\ Z.of_nat (length results) < Z.max 25 0 + 10
    /\ (0 <= 25 -> (10 | 25) -> Z.of_nat (length results) <= 25).
Proof.
  apply (C1_result_set_bounded_by_pages full_pages "q" config25 25 10).
  - lia.
  - left. reflexivity.
  - intros url params data H. injection H as <-.
    eexists. split; [reflexivity|]. cbn. lia.
Defined.

(** C1 as stated fails: with cap 25 and the default page size 10, three
    full pages are fetched and the ResultSet holds 30 items. *)
Lemma C1_cap_exceeded :
  outcome (google_search full_pages "q" (JObj config25) 10)
  = Ok (repeat result_item 30)
  /\ ~ Z.of_nat (length (repeat result_item 30)) <= 25.
Proof.
  split; [reflexivity|]. cbn. lia.
Qed.

(** *** The keyword expander *)

Section Expander.

Variable http_post : string -> json -> json -> reply.
Variable repr : json -> string.
Variables (search_term : string) (gemini_api_key : json).

Local Abbreviation request :=
  [HttpPost (gemini_url repr gemini_api_key) headers (payload search_term) 10].
Local Abbreviation response :=
  (http_post (gemini_url repr gemini_api_key) headers (payload search_term)).
Local Abbreviation run :=
  (get_related_keywords http_post repr search_term gemini_api_key).

(** No key: the original term, and no request. *)
Lemma keywords_without_key :
  truthy gemini_api_key = false -> run = (Ok [search_term], []).
Proof.
  intros H. unfold get_related_keywords. now rewrite H.
Qed.

(** A failing request: the original term. *)
Lemma keywords_request_failed :
  truthy gemini_api_key = true ->
  response = RequestException ->
  run = (Ok [search_term], request).
Proof.
  unfold get_related_keywords. intros -> Hpost.
  cbn [negb]. now rewrite bind_emit, Hpost.
Qed.

(** A response object without candidates: the original term. *)
Lemma keywords_without_candidates (d : list (string * json)) :
  truthy gemini_api_key = true ->
  response = Response (JObj d) ->
  assoc "candidates" d = None ->
  run = (Ok [search_term], request).
Proof.
  unfold get_related_keywords. intros -> Hpost Hnone.
  cbn [negb]. rewrite bind_emit, Hpost. cbn [contains].
  now rewrite Hnone.
Qed.

(** A first candidate whose content has no parts: the original term. *)
Lemma keywords_without_parts
    (d candidate content : list (string * json)) (others : list json) :
  truthy gemini_api_key = true ->
  response = Response (JObj d) ->
  assoc "candidates" d = Some (JArr (JObj candidate :: others)) ->
  assoc "content" candidate = Some (JObj content) ->
  assoc "parts" content = None ->
  run = (Ok [search_term], request).
Proof.
  unfold get_related_keywords.
  intros -> Hpost Hcands Hcontent Hparts.
  cbn [negb]. rewrite bind_emit, Hpost. cbn [contains getitem].
  rewrite Hcands. cbn. rewrite Hcontent. cbn. now rewrite Hparts.
Qed.

(** A response of the expected shape: the parsed text. *)
Lemma keywords_parsed (data : json) (text : string) :
  truthy gemini_api_key = true ->
  response = Response data ->
  nested_text data = Some (JStr text) ->
  run = (Ok (parse_keywords text), request).
Proof.
  unfold get_related_keywords, nested_text.
  intros -> Hpost Htext.
  cbn [negb]. rewrite bind_emit, Hpost.
  destruct data as [ | | | | |d]; try discriminate.
  cbn [contains getitem].
  destruct (assoc "candidates" d) as [[ | | | |[|[ | | | | |candidate] ?]| ]|];
    try discriminate.
  cbn.
  destruct (assoc "content" candidate) as [[ | | | | |content]|];
    try discriminate.
  cbn.
  destruct (assoc "parts" content) as [[ | | | |[|[ | | | | |part] ?]| ]|];
    try discriminate.
  cbn. now rewrite Htext.
Qed.

End Expander.

Lemma split_commas (s : string) :
  forallb (Ascii.eqb ",") (list_ascii_of_string s) = true ->
  filter nonempty (split "," s) = [].
Proof.
  induction s as [|c s IH]; [reflexivity|].
  cbn [list_ascii_of_string forallb split]. intros H.
  apply andb_true_iff in H as [Hc Hs].
  rewrite Ascii.eqb_sym in Hc. rewrite Hc. cbn. now apply IH.
Qed.

(** C2 fails on the code: a response whose candidate list is empty, or
    whose first candidate carries no content, passes the first half of the
    shape test and then raises an exception that is not a
    [RequestException], so it escapes [get_related_keywords]. *)
Theorem C2_unexpected_shape_escapes :
  outcome (get_related_keywords no_candidate no_repr "APT28" (JStr "gm-key"))
  = Raise IndexError
  /\ outcome (get_related_keywords blocked_candidate no_repr "APT28"
                (JStr "gm-key"))
     = Raise KeyError.
Proof. split; reflexivity. Qed.

(** C3 fails on the code: the emptiness test runs on the fragment before
    it is trimmed, so a fragment of whitespace is kept and becomes an
    empty string of the returned list, where splitting, trimming and
    dropping the empty fragments gives the two names only. *)
Theorem C3_blank_fragment_kept :
  outcome (get_related_keywords (says "A, ,B") no_repr "APT28" (JStr "gm-key"))
  = Ok ["A"; EmptyString; "B"]
  /\ In EmptyString ["A"; EmptyString; "B"]
  /\ trimmed_fragments "A, ,B" = ["A"; "B"].
Proof.
  split; [reflexivity|]. split; [|reflexivity]. right. left. reflexivity.
Qed.

(** The code and the wording agree on every text without a blank
    fragment. *)
Lemma parse_keywords_trimmed (text : string) :
  (forall frag, In frag (split "," text) ->
                nonempty frag = true -> nonempty (strip frag) = true) ->
  parse_keywords text = trimmed_fragments text.
Proof.
  unfold parse_keywords, trimmed_fragments.
  induction (split "," text) as [|frag frags IH]; intros H; [reflexivity|].
  cbn [filter map].
  assert (IH' : map strip (filter nonempty frags)
                = filter nonempty (map strip frags)).
  { apply IH. intros f Hf. apply H. now right. }
  destruct (nonempty frag) eqn:Hfrag.
  - rewrite (H frag (or_introl eq_refl) Hfrag). cbn [map]. now rewrite IH'.
  - destruct frag; [|discriminate]. cbn. exact IH'.
Qed.

(** An endpoint that cannot be reached costs one request and gives the
    original term back. *)
Lemma keywords_unreachable :
  get_related_keywords unreachable no_repr "APT28" (JStr "gm-key")
  = (Ok ["APT28"],
     [HttpPost (gemini_url no_repr (JStr "gm-key")) headers
        (payload "APT28") 10]).
Proof. reflexivity. Qed.

(** The example of the specification: the text A, B ,C. *)
Lemma keywords_of_example_text
    (http_post : string -> json -> json -> reply) (repr : json -> string)
    (search_term : string) (gemini_api_key : json) :
  truthy gemini_api_key = true ->
  http_post (gemini_url repr gemini_api_key) headers (payload search_term)
  = Response (gemini_body (JStr "A, B ,C")) ->
  outcome (get_related_keywords http_post repr search_term gemini_api_key)
  = Ok ["A"; "B"; "C"].
Proof.
  intros Hkey Hpost.
  now rewrite (keywords_parsed http_post repr search_term gemini_api_key
                 _ "A, B ,C" Hkey Hpost eq_refl).
Qed.

(** Apart from blank fragments, the returned list has no empty string. *)
Lemma parse_keywords_nonempty (text : string) :
  (forall frag, In frag (split "," text) ->
                nonempty frag = true -> nonempty (strip frag) = true) ->
  ~ In EmptyString (parse_keywords text).
Proof.
  intros Hfrag Hin. unfold parse_keywords in Hin.
  apply in_map_iff in Hin as [frag [Hstrip Hin]].
  apply filter_In in Hin as [Hin Hne].
  specialize (Hfrag frag Hin Hne). now rewrite Hstrip in Hfrag.
Qed.

(** *** The query builder *)

Lemma append_assoc (a b c : string) : ((a ++ b) ++ c = a ++ (b ++ c))%string.
Proof. induction a as [|x a IH]; cbn; [reflexivity|now rewrite IH]. Qed.

Lemma iter_strings (l : list string) : iter (JArr (map JStr l)) = Ok (map JStr l).
Proof. reflexivity. Qed.

Lemma get_list (m : list (string * json)) (key : string) (l : list string) :
  holds_list m key l ->
  get (JObj m) key (JArr []) = Ok (JArr (map JStr l)).
Proof.
  unfold get. now intros [-> | [-> ->]].
Qed.

(** C7. The query is the parenthesised group of the double-quoted
    expansion terms joined by OR, then the exclusion sites each prefixed
    -site: and joined by spaces, then the required terms each prefixed
    intext: and joined by spaces, with one space between the three
    groups, empty groups included. *)
Theorem C7_query_shape
    (http_post : string -> json -> json -> reply) (repr : json -> string)
    (base_keyword : string) (m : list (string * json))
    (expansion exclusions intext : list string) (t : list event) :
  get_related_keywords http_post repr base_keyword
    (credential m "GEMINI_API_KEY") = (Ok expansion, t) ->
  holds_list m "EXCLUDED_SITES" exclusions ->
  holds_list m "INTEXT_KEYWORDS" intext ->
  build_google_dorking_query http_post repr base_keyword (JObj m)
  = (Ok (query_of expansion exclusions intext), t).
Proof.
  intros Hkw Hex Hin. unfold build_google_dorking_query.
  change (get (JObj m) "GEMINI_API_KEY" JNull)
    with (Ok (credential m "GEMINI_API_KEY")).
  rewrite bind_lift_ok, Hkw, bind_ok.
  rewrite (get_list m _ _ Hex), bind_lift_ok, iter_strings, bind_lift_ok.
  rewrite (get_list m _ _ Hin), bind_lift_ok, iter_strings, bind_lift_ok.
  rewrite !map_map.
  cbn [str ret outcome trace fst snd]. rewrite app_nil_r.
  unfold query_of. cbn [append]. now rewrite append_assoc.
Qed.

Lemma C7_query_shape_witness :
  build_google_dorking_query (says "X,Y") no_repr "APT28" (JObj config_query)
  = (Ok ("("
         ++ String "034"%char
              ("X"
               ++ String "034"%char
                    (" OR "
                     ++ String "034"%char
                          ("Y"
                           ++ String "034"%char
                                ") -site:a.com intext:malware")))),
     [HttpPost (gemini_url no_repr (JStr "gm-key")) headers
        (payload "APT28") 10]).
Proof.
  exact (C7_query_shape (says "X,Y") no_repr "APT28" config_query
           ["X"; "Y"] ["a.com"] ["malware"] _
           eq_refl (or_introl eq_refl) (or_introl eq_refl)).
Defined.

(** The example of the specification, character by character: a
    parenthesis, X and Y each between two double-quote characters (code
    point 34) with OR between them, then the exclusion and the required
    term, one space apart. *)
Lemma query_of_example :
  list_ascii_of_string (query_of ["X"; "Y"] ["a.com"] ["malware"])
  = (["("; "034"; "X"; "034"; " "; "O"; "R"; " "; "034"; "Y"; "034"; ")"; " "]
     ++ list_ascii_of_string "-site:a.com" ++ [" "]
     ++ list_ascii_of_string "intext:malware")%char%list.
Proof. reflexivity. Qed.

(** Empty exclusion and intext lists leave two trailing spaces. *)
Lemma query_of_empty_groups (expansion : list string) :
  query_of expansion [] []
  = "(" ++ separated " OR " (map in_quotes expansion) ++ ")" ++ "  ".
Proof. unfold query_of. cbn. now rewrite append_assoc. Qed.

Lemma query_of_single_term_alone :
  query_of ["APT28"] [] []
  = String "(" (String "034" ("APT28" ++ String "034" ")  ")).
Proof. reflexivity. Qed.

(** C10. A successful response whose text holds nothing but commas makes
    the expander return the empty list, not the original term, and the
    query built from it starts with an empty group. *)
Theorem C10_empty_expansion
    (http_post : string -> json -> json -> reply) (repr : json -> string)
    (base_keyword : string) (m : list (string * json)) (text : string)
    (exclusions intext : list string) :
  truthy (credential m "GEMINI_API_KEY") = true ->
  forallb (Ascii.eqb ",") (list_ascii_of_string text) = true ->
  http_post (gemini_url repr (credential m "GEMINI_API_KEY")) headers
    (payload base_keyword) = Response (gemini_body (JStr text)) ->
  holds_list m "EXCLUDED_SITES" exclusions ->
  holds_list m "INTEXT_KEYWORDS" intext ->
  outcome (get_related_keywords http_post repr base_keyword
             (credential m "GEMINI_API_KEY")) = Ok []
  /\ exists rest,
       outcome (build_google_dorking_query http_post repr base_keyword (JObj m))
       = Ok ("()" ++ rest).
Proof.
  intros Hkey Hcommas Hpost Hex Hin.
  pose proof (keywords_parsed http_post repr base_keyword
                (credential m "GEMINI_API_KEY") _ text Hkey Hpost eq_refl)
    as Hkw.
  unfold parse_keywords in Hkw. rewrite (split_commas text Hcommas) in Hkw.
  cbn [map] in Hkw. split.
  - now rewrite Hkw.
  - unfold build_google_dorking_query.
    change (get (JObj m) "GEMINI_API_KEY" JNull)
      with (Ok (credential m "GEMINI_API_KEY")).
    rewrite bind_lift_ok, Hkw, bind_ok.
    rewrite (get_list m _ _ Hex), bind_lift_ok, iter_strings, bind_lift_ok.
    rewrite (get_list m _ _ Hin), bind_lift_ok, iter_strings, bind_lift_ok.
    cbn [outcome ret fst map join String.concat].
    eexists. cbn [append]. reflexivity.
Qed.

Lemma C10_empty_expansion_witness :
  outcome (get_related_keywords (says ",,") no_repr "APT28"
             (credential config_query "GEMINI_API_KEY")) = Ok []
  /\ exists rest,
       outcome (build_google_dorking_query (says ",,") no_repr "APT28"
                  (JObj config_query))
       = Ok ("()" ++ rest).
Proof.
  apply (C10_empty_expansion (says ",,") no_repr "APT28" config_query ",,"
           ["a.com"] ["malware"]).
  - reflexivity.
  - reflexivity.
  - reflexivity.
  - left. reflexivity.
  - left. reflexivity.
Defined.

(** Whitespace between the commas is another matter: the blank fragment
    survives as an empty keyword, and the group is not empty. *)
Lemma blank_between_commas :
  parse_keywords ", ," = [EmptyString].
Proof. reflexivity. Qed.

(** *** The tabular writer *)

Lemma write_rows_items (filename : string) (items : list (list (string * json))) :
  write_rows filename (map JObj items)
  = (Ok tt,
     map (fun item => CsvRow filename [field_or_na item "title";
                                       field_or_na item "link"]) items).
Proof.
  induction items as [|item rest IH]; [reflexivity|].
  cbn [map write_rows get]. rewrite !bind_lift_ok, bind_emit, IH.
  reflexivity.
Qed.


(** An item without a link gets N/A in the link column. *)
Lemma csv_row_without_link :
  trace (save_results_to_csv (fun _ => true)
           [JObj [("title", JStr "APT28 report")]] "out.csv")
  = [OpenWrite "out.csv";
     CsvRow "out.csv" [JStr "Title"; JStr "Link"];
     CsvRow "out.csv" [JStr "APT28 report"; JStr "N/A"]].
Proof. reflexivity. Qed.

(** A file in a directory that does not exist gets no row at all. *)
Lemma csv_file_not_opened :
  save_results_to_csv (fun _ => false)
    [JObj [("title", JStr "APT28 report")]] "reports/out.csv"
  = (Raise OSError, [OpenWrite "reports/out.csv"]).
Proof. reflexivity. Qed.

(** *** The entry point *)

Lemma lstrip_blank (s : string) :
  forallb isspace (list_ascii_of_string s) = true -> lstrip s = EmptyString.
Proof.
  induction s as [|c s IH]; [reflexivity|].
  cbn [list_ascii_of_string forallb lstrip]. intros H.
  apply andb_true_iff in H as [-> Hs]. now apply IH.
Qed.

Lemma strip_blank (s : string) :
  forallb isspace (list_ascii_of_string s) = true -> strip s = EmptyString.
Proof.
  intros H. unfold strip. now rewrite (lstrip_blank s H).
Qed.

(** C9. When the positional search keyword is empty or holds only
    whitespace, the run raises [SystemExit(1)], so the process exits with
    status 1, and its trace is empty: the configuration was not read and
    no request was issued. *)
Theorem C9_blank_keyword_exits
    (read_config : string -> option json) (open_write : string -> bool)
    (http_post : string -> json -> json -> reply)
    (http_get : string -> json -> reply) (repr : json -> string)
    (arg_search_keyword arg_config : string) :
  forallb isspace (list_ascii_of_string arg_search_keyword) = true ->
  main read_config open_write http_post http_get repr
    arg_search_keyword arg_config
  = (Raise (SystemExit 1), [])
  /\ exit_status
       (outcome (main read_config open_write http_post http_get repr
                   arg_search_keyword arg_config)) = 1.
Proof.
  intros H. unfold main. rewrite (strip_blank _ H). split; reflexivity.
Qed.

Lemma C9_blank_keyword_witness :
  main (fun _ => Some (JObj config25)) (fun _ => true) (says "X,Y")
    full_pages no_repr "   " "config.json"
  = (Raise (SystemExit 1), [])
  /\ exit_status
       (outcome (main (fun _ => Some (JObj config25)) (fun _ => true)
                   (says "X,Y") full_pages no_repr "   " "config.json")) = 1.
Proof.
  apply C9_blank_keyword_exits. reflexivity.
Defined.

(** With a keyword that is not blank the configuration is read first. *)
Lemma keyword_then_config :
  main no_config (fun _ => true) (says "X,Y") full_pages no_repr
    "APT28" " config.json "
  = (Raise (SystemExit 1), [ReadFile "config.json"]).
Proof. reflexivity. Qed.

(* ================================================================= *)
(** ** Further properties of the code *)

Import Shape Cases.

(** *** Traces of composed computations *)


Lemma trace_bind {A B} (m : M A) (f : A -> M B) :
  trace (bind m f)
  = match outcome m with
    | Ok a => (trace m ++ trace (f a))%list
    | Raise _ => trace m
    end.
Proof.
  destruct m as [[a|e] t]; [|reflexivity]. now rewrite bind_ok.
Qed.

Section Confined.

Variable P : event -> bool.

Lemma confined_bind {A B} (m : M A) (f : A -> M B) :
  confined P m -> (forall a, confined P (f a)) -> confined P (bind m f).
Proof.
  unfold confined. intros Hm Hf. rewrite trace_bind.
  destruct (outcome m); [|exact Hm].
  rewrite forallb_app, Hm. apply Hf.
Qed.

Lemma confined_lift {A} (r : result A) : confined P (lift r).
Proof. reflexivity. Qed.

Lemma confined_ret {A} (a : A) : confined P (ret a).
Proof. reflexivity. Qed.

Lemma confined_raise {A} (e : exn) : confined P (@raise A e).
Proof. reflexivity. Qed.

Lemma confined_emit (e : event) : P e = true -> confined P (emit e).
Proof. unfold confined. cbn. now intros ->. Qed.

End Confined.

(** Steps through a computation, down to its events. *)
Ltac confine :=
  repeat first
    [ apply confined_lift
    | apply confined_ret
    | apply confined_raise
    | apply confined_emit; reflexivity
    | apply confined_bind; [|intros]
    | match goal with
      | |- confined _ (if ?b then _ else _) => destruct b
      | |- confined _ (match ?x with _ => _ end) => destruct x
      end ].

Lemma confined_nothing {A} (m : M A) :
  confined (fun _ => false) m -> trace m = [].
Proof.
  unfold confined. destruct (trace m); [reflexivity|discriminate].
Qed.

(** *** The keyword expander, whatever the endpoint answers *)

(** X1. Whatever the key, the term and the endpoint's answer, the keyword
    expander issues no request when the key is falsy and exactly one POST
    otherwise, to the endpoint URL ending in the key, with a 10-second
    time-out; this also holds for the runs that end in an exception. *)
Theorem X1_expander_one_request
    (http_post : string -> json -> json -> reply) (repr : json -> string)
    (search_term : string) (gemini_api_key : json) :
  trace (get_related_keywords http_post repr search_term gemini_api_key)
  = if truthy gemini_api_key
    then [HttpPost (gemini_endpoint ++ str repr gemini_api_key) headers
            (payload search_term) 10]
    else [].
Proof.
  unfold get_related_keywords.
  destruct (truthy gemini_api_key); [|reflexivity].
  cbn [negb]. rewrite bind_emit. cbn [trace snd]. f_equal.
  apply confined_nothing. confine.
Qed.

(** *** Trimming and splitting *)

Lemma lstrip_head (s : string) :
  lstrip s = EmptyString
  \/ exists c r, lstrip s = String c r /\ isspace c = false.
Proof.
  induction s as [|c s IH]; [now left|].
  cbn [lstrip]. destruct (isspace c) eqn:Hc; [exact IH|].
  right. now exists c, s.
Qed.

Lemma lstrip_empty_blank (s : string) :
  lstrip s = EmptyString -> blank s = true.
Proof.
  unfold blank. induction s as [|c s IH]; [reflexivity|].
  cbn [lstrip list_ascii_of_string forallb].
  destruct (isspace c); [exact IH|discriminate].
Qed.

Lemma rstrip_fixed (s : string) : rstrip (rstrip s) = rstrip s.
Proof.
  induction s as [|c s IH]; [reflexivity|].
  cbn [rstrip]. destruct (rstrip s) as [|d r] eqn:Hr.
  - destruct (isspace c) eqn:Hc; [reflexivity|].
    cbn [rstrip]. now rewrite Hc.
  - cbn [rstrip]. cbn [rstrip] in IH.
    destruct (rstrip r) as [|d' r'] eqn:Hr'.
    + destruct (isspace d) eqn:Hd; [discriminate|]. now rewrite IH.
    + now rewrite IH.
Qed.

Lemma rstrip_keeps_head (c : ascii) (r : string) :
  isspace c = false -> exists r', rstrip (String c r) = String c r'.
Proof.
  intros Hc. cbn [rstrip]. destruct (rstrip r) as [|d r'].
  - rewrite Hc. now exists EmptyString.
  - now exists (String d r').
Qed.

Lemma lstrip_strip (s : string) : lstrip (strip s) = strip s.
Proof.
  unfold strip. destruct (lstrip_head s) as [-> | [c [r [-> Hc]]]];
    [reflexivity|].
  destruct (rstrip_keeps_head c r Hc) as [r' ->].
  cbn [lstrip]. now rewrite Hc.
Qed.

Lemma rstrip_strip (s : string) : rstrip (strip s) = strip s.
Proof. unfold strip. apply rstrip_fixed. Qed.

(** A keyword with a character that is not whitespace survives trimming. *)
Lemma strip_not_blank (s : string) :
  blank s = false -> nonempty (strip s) = true.
Proof.
  intros Hs. unfold strip.
  destruct (lstrip_head s) as [He | [c [r [-> Hc]]]].
  - apply lstrip_empty_blank in He. congruence.
  - now destruct (rstrip_keeps_head c r Hc) as [r' ->].
Qed.

Lemma has_char_lstrip (c : ascii) (s : string) :
  has_char c (lstrip s) = true -> has_char c s = true.
Proof.
  unfold has_char. induction s as [|d s IH]; [easy|].
  cbn [lstrip]. destruct (isspace d); [|easy].
  intros H. cbn [list_ascii_of_string existsb]. rewrite (IH H).
  apply orb_true_r.
Qed.

Lemma has_char_rstrip (c : ascii) (s : string) :
  has_char c (rstrip s) = true -> has_char c s = true.
Proof.
  unfold has_char. induction s as [|d s IH]; [easy|].
  cbn [rstrip list_ascii_of_string existsb].
  destruct (rstrip s) as [|e r].
  - destruct (isspace d); [discriminate|].
    cbn [list_ascii_of_string existsb]. rewrite orb_false_r. now intros ->.
  - cbn [list_ascii_of_string existsb] in *.
    intros H. apply orb_true_iff in H as [-> | H]; [reflexivity|].
    rewrite (IH H). apply orb_true_r.
Qed.

(** No fragment of a split holds the separator. *)
Lemma split_no_separator (sep : ascii) (s : string) :
  forall frag, In frag (split sep s) -> has_char sep frag = false.
Proof.
  unfold has_char. induction s as [|c s IH]; intros frag Hin.
  - destruct Hin as [<- | []]. reflexivity.
  - cbn [split] in Hin. destruct (Ascii.eqb c sep) eqn:Hc.
    + destruct Hin as [<- | Hin]; [reflexivity|now apply IH].
    + destruct (split sep s) as [|f fs].
      * destruct Hin as [<- | []]. cbn. rewrite Ascii.eqb_sym, Hc.
        reflexivity.
      * destruct Hin as [<- | Hin]; [|apply IH; now right].
        cbn [list_ascii_of_string existsb]. rewrite Ascii.eqb_sym, Hc.
        apply IH. now left.
Qed.

(** X2. Every keyword parsed from a response text is trimmed: stripping
    it again, on the left or on the right, changes nothing. *)
Theorem X2_keywords_trimmed (text kw : string) :
  In kw (parse_keywords text) ->
  lstrip kw = kw /\ rstrip kw = kw /\ strip kw = kw.
Proof.
  unfold parse_keywords. intros H.
  apply in_map_iff in H as [frag [<- _]].
  assert (Hl := lstrip_strip frag). assert (Hr := rstrip_strip frag).
  repeat split; try assumption.
  unfold strip at 1. now rewrite Hl, Hr.
Qed.

Lemma X2_keywords_trimmed_witness :
  lstrip "Fancy Bear" = "Fancy Bear" /\ rstrip "Fancy Bear" = "Fancy Bear"
  /\ strip "Fancy Bear" = "Fancy Bear".
Proof.
  apply (X2_keywords_trimmed "APT28 , Fancy Bear ,Sofacy").
  right. left. reflexivity.
Defined.

(** X3. No keyword parsed from a response text holds a comma. *)
Theorem X3_keywords_without_comma (text kw : string) :
  In kw (parse_keywords text) -> has_char "," kw = false.
Proof.
  unfold parse_keywords. intros H.
  apply in_map_iff in H as [frag [<- Hfrag]].
  apply filter_In in Hfrag as [Hfrag _].
  apply (split_no_separator "," text) in Hfrag.
  destruct (has_char "," (strip frag)) eqn:Hc; [|reflexivity].
  unfold strip in Hc.
  apply has_char_rstrip, has_char_lstrip in Hc. congruence.
Qed.

Lemma X3_keywords_without_comma_witness :
  has_char "," "Fancy Bear" = false.
Proof.
  apply (X3_keywords_without_comma "APT28 , Fancy Bear ,Sofacy").
  right. left. reflexivity.
Defined.

(** *** The query builder on other configurations *)


(** The query, from whatever the two configured values iterate to. *)
Lemma query_from_lists
    (http_post : string -> json -> json -> reply) (repr : json -> string)
    (base_keyword : string) (m : list (string * json))
    (expansion exclusions intext : list string) (t : list event)
    (sites terms : json) :
  get_related_keywords http_post repr base_keyword
    (credential m "GEMINI_API_KEY") = (Ok expansion, t) ->
  get (JObj m) "EXCLUDED_SITES" (JArr []) = Ok sites ->
  iter sites = Ok (map JStr exclusions) ->
  get (JObj m) "INTEXT_KEYWORDS" (JArr []) = Ok terms ->
  iter terms = Ok (map JStr intext) ->
  build_google_dorking_query http_post repr base_keyword (JObj m)
  = (Ok (query_of expansion exclusions intext), t).
Proof.
  intros Hkw Hsites Hex Hterms Hin. unfold build_google_dorking_query.
  change (get (JObj m) "GEMINI_API_KEY" JNull)
    with (Ok (credential m "GEMINI_API_KEY")).
  rewrite bind_lift_ok, Hkw, bind_ok.
  rewrite Hsites, bind_lift_ok, Hex, bind_lift_ok.
  rewrite Hterms, bind_lift_ok, Hin, bind_lift_ok.
  rewrite !map_map.
  cbn [str ret outcome trace fst snd]. rewrite app_nil_r.
  unfold query_of. cbn [append]. now rewrite append_assoc.
Qed.

(** X4. Without a generative-API key (absent, null or empty) the query
    is built around the original keyword alone, and building it issues no
    request at all. *)
Theorem X4_query_without_key
    (http_post : string -> json -> json -> reply) (repr : json -> string)
    (base_keyword : string) (m : list (string * json))
    (exclusions intext : list string) :
  missing m "GEMINI_API_KEY" ->
  holds_list m "EXCLUDED_SITES" exclusions ->
  holds_list m "INTEXT_KEYWORDS" intext ->
  build_google_dorking_query http_post repr base_keyword (JObj m)
  = (Ok (query_of [base_keyword] exclusions intext), []).
Proof.
  intros Hkey Hex Hin.
  apply (query_from_lists http_post repr base_keyword m [base_keyword]
           exclusions intext [] (JArr (map JStr exclusions))
           (JArr (map JStr intext))).
  - unfold get_related_keywords. now rewrite (missing_falsy m _ Hkey).
  - now apply get_list.
  - reflexivity.
  - now apply get_list.
  - reflexivity.
Qed.

Lemma X4_query_without_key_witness :
  build_google_dorking_query (says "X,Y") no_repr "APT28"
    (JObj [("EXCLUDED_SITES", JArr [JStr "a.com"])])
  = (Ok (query_of ["APT28"] ["a.com"] []), []).
Proof.
  apply X4_query_without_key.
  - left. reflexivity.
  - left. reflexivity.
  - right. split; reflexivity.
Defined.

(** X5. A configured exclusion or intext value that is null, a boolean
    or a number cannot be iterated: the query builder raises [TypeError],
    after the keyword expander has already run (its request is spent). *)
Theorem X5_query_list_not_iterable
    (http_post : string -> json -> json -> reply) (repr : json -> string)
    (base_keyword : string) (m : list (string * json))
    (expansion exclusions : list string) (t : list event) (v : json) :
  get_related_keywords http_post repr base_keyword
    (credential m "GEMINI_API_KEY") = (Ok expansion, t) ->
  scalar v = true ->
  assoc "EXCLUDED_SITES" m = Some v
  \/ (holds_list m "EXCLUDED_SITES" exclusions
      /\ assoc "INTEXT_KEYWORDS" m = Some v) ->
  build_google_dorking_query http_post repr base_keyword (JObj m)
  = (Raise TypeError, t).
Proof.
  intros Hkw Hv H. unfold build_google_dorking_query.
  change (get (JObj m) "GEMINI_API_KEY" JNull)
    with (Ok (credential m "GEMINI_API_KEY")).
  rewrite bind_lift_ok, Hkw, bind_ok.
  destruct H as [Hsites | [Hex Hterms]].
  - assert (Hget : get (JObj m) "EXCLUDED_SITES" (JArr []) = Ok v)
      by (unfold get; now rewrite Hsites).
    rewrite Hget, bind_lift_ok.
    destruct v; try discriminate; cbn; now rewrite app_nil_r.
  - assert (Hget : get (JObj m) "INTEXT_KEYWORDS" (JArr []) = Ok v)
      by (unfold get; now rewrite Hterms).
    rewrite (get_list m _ _ Hex), bind_lift_ok, iter_strings, bind_lift_ok.
    rewrite Hget, bind_lift_ok.
    destruct v; try discriminate; cbn; now rewrite app_nil_r.
Qed.

Lemma X5_query_list_not_iterable_witness :
  build_google_dorking_query (says "X,Y") no_repr "APT28"
    (JObj [("GEMINI_API_KEY", JStr "gm-key"); ("EXCLUDED_SITES", JNull)])
  = (Raise TypeError,
     [HttpPost (gemini_url no_repr (JStr "gm-key")) headers
        (payload "APT28") 10]).
Proof.
  apply (X5_query_list_not_iterable (says "X,Y") no_repr "APT28" _
           ["X"; "Y"] [] _ JNull).
  - reflexivity.
  - reflexivity.
  - left. reflexivity.
Defined.

Lemma chars_letters (s : string) : chars s = map JStr (letters s).
Proof. unfold chars, letters. now rewrite map_map. Qed.

(** X6. An exclusion value given as one string instead of a list is
    iterated character by character: every character of the string
    becomes an exclusion term of its own. *)
Theorem X6_query_string_as_letters
    (http_post : string -> json -> json -> reply) (repr : json -> string)
    (base_keyword : string) (m : list (string * json))
    (expansion intext : list string) (t : list event) (site : string) :
  get_related_keywords http_post repr base_keyword
    (credential m "GEMINI_API_KEY") = (Ok expansion, t) ->
  assoc "EXCLUDED_SITES" m = Some (JStr site) ->
  holds_list m "INTEXT_KEYWORDS" intext ->
  build_google_dorking_query http_post repr base_keyword (JObj m)
  = (Ok (query_of expansion (letters site) intext), t).
Proof.
  intros Hkw Hsite Hin.
  apply (query_from_lists http_post repr base_keyword m expansion
           (letters site) intext t (JStr site) (JArr (map JStr intext)) Hkw).
  - unfold get. now rewrite Hsite.
  - cbn [iter]. now rewrite chars_letters.
  - now apply get_list.
  - reflexivity.
Qed.

Lemma X6_query_string_as_letters_witness :
  build_google_dorking_query (says "X,Y") no_repr "APT28"
    (JObj [("EXCLUDED_SITES", JStr "a.b")])
  = (Ok (query_of ["APT28"] ["a"; "."; "b"] []), []).
Proof.
  apply (X6_query_string_as_letters (says "X,Y") no_repr "APT28" _
           ["APT28"] [] [] "a.b").
  - reflexivity.
  - reflexivity.
  - right. split; reflexivity.
Defined.

(** *** The search paginator, whatever the endpoint answers *)

Section AnyAnswer.

Variable http_get : string -> json -> reply.
Variables (google_api_key cx : json) (query : string) (page_size : Z).

Local Abbreviation fetch :=
  (fetch_pages http_get google_api_key cx query page_size).
Local Abbreviation params := (search_params google_api_key cx query page_size).
Local Abbreviation events := (page_events google_api_key cx query page_size).

(** Taking the items of a page either raises, leaving no event, or hands
    an accumulator to the rest of the loop. *)
Lemma page_step (data : json) (results : list json)
    (k : list json -> M (list json)) :
  (exists e,
      (has_items <- lift (contains "items" data) ;;
       results' <-
         (if has_items : bool then
            items <- lift (getitem data "items") ;;
            new <- lift (iter items) ;;
            ret (results ++ new)%list
          else ret results) ;;
       k results') = (Raise e, []))
  \/ (exists results',
         (has_items <- lift (contains "items" data) ;;
          results' <-
            (if has_items : bool then
               items <- lift (getitem data "items") ;;
               new <- lift (iter items) ;;
               ret (results ++ new)%list
             else ret results) ;;
          k results') = k results').
Proof.
  destruct (contains "items" data) as [[|]|e].
  - rewrite bind_lift_ok.
    destruct (getitem data "items") as [items|e]; [|left; now exists e].
    cbn. destruct (iter items) as [new|e]; [|left; now exists e].
    right. exists (results ++ new)%list.
    rewrite bind_ok. now destruct (k (results ++ new)%list).
  - right. exists results. rewrite bind_lift_ok.
    cbn. now destruct (k results).
  - left. now exists e.
Qed.

Lemma fetch_pages_prefix (offsets : list Z) :
  forall results,
  exists k : nat,
    (k <= length offsets)%nat
    /\ starts (trace (fetch offsets results)) = map JInt (firstn k offsets)
    /\ length (filter is_request (trace (fetch offsets results))) = k.
Proof.
  induction offsets as [|start rest IH]; intros results.
  - exists 0%nat. cbn. repeat split; lia.
  - cbn [fetch_pages]. rewrite bind_emit.
    destruct (http_get base_url (params start)) as [|data].
    + exists 1%nat. cbn. repeat split; lia.
    + destruct (page_step data results
                  (fun r => emit (Sleep 1) ;; fetch rest r))
        as [[e ->] | [results' ->]].
      * exists 1%nat. cbn. repeat split; lia.
      * rewrite bind_emit. destruct (IH results') as [k [Hk [Hs Hn]]].
        exists (S k). cbn [trace snd outcome fst length firstn map].
        cbn [starts start_of search_params assoc filter is_request].
        cbn. rewrite Hs, Hn. repeat split; lia.
Qed.


(** A page the loop cannot take items from ends the run with a
    [TypeError]. *)
Lemma fetch_pages_crash (before : list Z) :
  forall (news : list (list json)) (bad : Z) (after : list Z)
         (data : json) (results : list json),
    Forall2 (answers http_get google_api_key cx query page_size) before news ->
    http_get base_url (params bad) = Response data ->
    unusable_page data = true ->
    fetch (before ++ bad :: after) results
    = (Raise TypeError,
       (flat_map events before ++ [HttpGet base_url (params bad) 10])%list).
Proof.
  induction before as [|start rest IH];
    intros news bad after data results H Hget Hbad;
    inversion H as [|? new ? news' [data' [Hget' Hitems]] Hrest]; subst.
  - cbn [fetch_pages app]. rewrite bind_emit, Hget.
    unfold unusable_page in Hbad.
    destruct data as [ | | | | |d]; try discriminate; try reflexivity.
    cbn [contains getitem].
    destruct (assoc "items" d) as [v|]; [|discriminate].
    destruct v; try discriminate; reflexivity.
  - cbn [fetch_pages app]. rewrite bind_emit, Hget'.
    rewrite (extend_items data' new results
               (fun r => emit (Sleep 1) ;;
                         fetch (rest ++ bad :: after) r) Hitems).
    rewrite bind_emit,
      (IH news' bad after data (results ++ new)%list Hrest Hget Hbad).
    reflexivity.
Qed.

End AnyAnswer.

Lemma firstn_seq_le (k n start : nat) :
  (k <= n)%nat -> firstn k (seq start n) = seq start k.
Proof.
  revert n start. induction k as [|k IH]; intros n start Hk; [reflexivity|].
  destruct n as [|n]; [lia|]. cbn. f_equal. apply IH. lia.
Qed.


(** X7. Whatever the endpoint answers (failures and malformed responses
    included), the requests of the search paginator go to an initial
    segment of the offsets 1, 1 + pageSize, ...: none is skipped, repeated
    or reordered, and there are never more than ceil(cap / pageSize) of
    them. *)
Theorem X7_requests_form_a_prefix
    (http_get : string -> json -> reply) (query : string)
    (m : list (string * json)) (cap page_size : Z) :
  0 < page_size ->
  holds_cap m cap ->
  exists k : nat,
    (k <= page_count cap page_size)%nat
    /\ starts (trace (google_search http_get query (JObj m) page_size))
       = map (fun i => JInt (offset page_size i)) (seq 0 k)
    /\ length (filter is_request
                 (trace (google_search http_get query (JObj m) page_size)))
       = k.
Proof.
  intros Hps Hcap.
  destruct (truthy (credential m "GOOGLE_API_KEY")
            && truthy (credential m "CX")) eqn:Hcred.
  - apply andb_true_iff in Hcred as [Hkey Hcx].
    rewrite (google_search_loop http_get query m cap page_size Hkey Hcx Hcap).
    rewrite (range_offsets cap page_size Hps), bind_lift_ok.
    destruct (fetch_pages_prefix http_get (credential m "GOOGLE_API_KEY")
                (credential m "CX") query page_size
                (map (offset page_size) (seq 0 (page_count cap page_size))) [])
      as [k [Hk [Hs Hn]]].
    rewrite length_map, length_seq in Hk.
    exists k. split; [exact Hk|]. split; [|exact Hn].
    now rewrite Hs, firstn_map, (firstn_seq_le _ _ _ Hk), map_map.
  - rewrite (google_search_no_credentials http_get query m page_size Hcred).
    exists 0%nat. cbn. repeat split; lia.
Qed.

Lemma X7_requests_form_a_prefix_witness :
  exists k : nat,
    (k <= page_count 25 10)%nat
    /\ starts (trace (google_search null_items "q" (JObj config25) 10))
       = map (fun i => JInt (offset 10 i)) (seq 0 k)
    /\ length (filter is_request
                 (trace (google_search null_items "q" (JObj config25) 10)))
       = k.
Proof.
  apply (X7_requests_form_a_prefix null_items "q" config25 25 10).
  - lia.
  - left. reflexivity.
Defined.

(** X8. When every request succeeds, the search paginator returns the
    items of all pages, concatenated in page order, and sleeps one second
    after each page. *)
Theorem X8_all_pages_concatenated
    (http_get : string -> json -> reply) (query : string)
    (m : list (string * json)) (cap page_size : Z)
    (news : list (list json)) :
  0 < page_size ->
  truthy (credential m "GOOGLE_API_KEY") = true ->
  truthy (credential m "CX") = true ->
  holds_cap m cap ->
  Forall2 (answers http_get (credential m "GOOGLE_API_KEY")
             (credential m "CX") query page_size)
    (map (offset page_size) (seq 0 (page_count cap page_size))) news ->
  google_search http_get query (JObj m) page_size
  = (Ok (concat news),
     flat_map (page_events (credential m "GOOGLE_API_KEY")
                 (credential m "CX") query page_size)
       (map (offset page_size) (seq 0 (page_count cap page_size)))).
Proof.
  intros Hps Hkey Hcx Hcap Hnews.
  rewrite (google_search_loop http_get query m cap page_size Hkey Hcx Hcap).
  rewrite (range_offsets cap page_size Hps), bind_lift_ok.
  now rewrite (fetch_pages_all _ _ _ _ _ _ news [] Hnews).
Qed.

Lemma X8_all_pages_concatenated_witness :
  google_search full_pages "q" (JObj config25) 10
  = (Ok (concat (repeat (repeat result_item 10) 3)),
     flat_map (page_events (credential config25 "GOOGLE_API_KEY")
                 (credential config25 "CX") "q" 10)
       (map (offset 10) (seq 0 (page_count 25 10)))).
Proof.
  apply (X8_all_pages_concatenated full_pages "q" config25 25 10).
  - lia.
  - reflexivity.
  - reflexivity.
  - left. reflexivity.
  - repeat constructor; eexists; split; reflexivity.
Defined.

(** X9. A successful response the loop cannot take items from (a null,
    boolean or numeric body, or such a value under "items") raises
    [TypeError]: the exception is not caught, no further request is
    issued, and the items of the earlier pages are not returned. *)
Theorem X9_unusable_page_raises
    (http_get : string -> json -> reply) (query : string)
    (m : list (string * json)) (cap page_size : Z)
    (before after : list Z) (bad : Z) (news : list (list json))
    (data : json) :
  truthy (credential m "GOOGLE_API_KEY") = true ->
  truthy (credential m "CX") = true ->
  holds_cap m cap ->
  range 1 (cap + 1) page_size = Ok (before ++ bad :: after)%list ->
  Forall2 (answers http_get (credential m "GOOGLE_API_KEY")
             (credential m "CX") query page_size) before news ->
  http_get base_url
    (search_params (credential m "GOOGLE_API_KEY") (credential m "CX")
       query page_size bad) = Response data ->
  unusable_page data = true ->
  outcome (google_search http_get query (JObj m) page_size) = Raise TypeError
  /\ starts (trace (google_search http_get query (JObj m) page_size))
     = map JInt (before ++ [bad]).
Proof.
  intros Hkey Hcx Hcap Hrange Hbefore Hget Hbad.
  rewrite (google_search_loop http_get query m cap page_size Hkey Hcx Hcap).
  rewrite Hrange, bind_lift_ok.
  rewrite (fetch_pages_crash _ _ _ _ _ before news bad after data []
             Hbefore Hget Hbad).
  cbn [outcome trace fst snd]. split; [reflexivity|].
  rewrite starts_app, starts_pages, map_app. reflexivity.
Qed.

Lemma X9_unusable_page_raises_witness :
  outcome (google_search null_items "q" (JObj config25) 10) = Raise TypeError
  /\ starts (trace (google_search null_items "q" (JObj config25) 10))
     = map JInt ([] ++ [1]).
Proof.
  apply (X9_unusable_page_raises null_items "q" config25 25 10
           [] [11; 21] 1 [] (JObj [("items", JNull)])).
  - reflexivity.
  - reflexivity.
  - left. reflexivity.
  - reflexivity.
  - constructor.
  - reflexivity.
  - reflexivity.
Defined.

(** X10. With both credentials present, a total-results value that is
    not an integer (a string such as "50", null, a list, an object) makes
    the search paginator raise [TypeError] before any request. *)
Theorem X10_cap_not_a_number
    (http_get : string -> json -> reply) (query : string)
    (m : list (string * json)) (page_size : Z) (v : json) :
  truthy (credential m "GOOGLE_API_KEY") = true ->
  truthy (credential m "CX") = true ->
  assoc "TOTAL_RESULTS" m = Some v ->
  is_number v = false ->
  google_search http_get query (JObj m) page_size = (Raise TypeError, []).
Proof.
  intros Hkey Hcx Hcap Hv. unfold google_search, get.
  rewrite !bind_lift_ok. fold (credential m "GOOGLE_API_KEY").
  fold (credential m "CX"). rewrite Hkey, Hcx, Hcap. cbn [negb orb].
  destruct v; try discriminate; reflexivity.
Qed.

Lemma X10_cap_not_a_number_witness :
  google_search full_pages "q"
    (JObj [("GOOGLE_API_KEY", JStr "g-key"); ("CX", JStr "engine");
           ("TOTAL_RESULTS", JStr "50")]) 10
  = (Raise TypeError, []).
Proof.
  apply (X10_cap_not_a_number full_pages "q" _ 10 (JStr "50")).
  - reflexivity.
  - reflexivity.
  - reflexivity.
  - reflexivity.
Defined.

(** *** The writers *)

Lemma write_rows_until (filename : string)
    (good : list (list (string * json))) (bad : json) (rest : list json) :
  is_object bad = false ->
  write_rows filename (map JObj good ++ bad :: rest)
  = (Raise AttributeError, map (csv_row filename) good).
Proof.
  intros Hbad. induction good as [|item good IH].
  - cbn [map app write_rows]. destruct bad; try discriminate; reflexivity.
  - cbn [map app write_rows get]. rewrite !bind_lift_ok, bind_emit, IH.
    reflexivity.
Qed.

(** X11. In a file that could be opened, a result that is not an object
    stops the tabular writer with [AttributeError] in the middle of the
    file: the header and the rows of the items before it are already
    written, the rows after it are not. *)
Theorem X11_csv_stops_at_non_object (open_write : string -> bool)
    (filename : string) (good : list (list (string * json)))
    (bad : json) (rest : list json) :
  open_write filename = true ->
  is_object bad = false ->
  save_results_to_csv open_write (map JObj good ++ bad :: rest) filename
  = (Raise AttributeError,
     OpenWrite filename
     :: CsvRow filename [JStr "Title"; JStr "Link"]
     :: map (csv_row filename) good).
Proof.
  intros Hopen Hbad. unfold save_results_to_csv, open_w.
  now rewrite Hopen, !bind_emit,
    (write_rows_until filename good bad rest Hbad).
Qed.

Lemma X11_csv_stops_at_non_object_witness :
  save_results_to_csv flat_directory
    (map JObj two_items ++ JStr "not an item" :: [result_item]) "out.csv"
  = (Raise AttributeError,
     OpenWrite "out.csv"
     :: CsvRow "out.csv" [JStr "Title"; JStr "Link"]
     :: map (csv_row "out.csv") two_items).
Proof.
  apply X11_csv_stops_at_non_object; reflexivity.
Defined.

Lemma print_results_items (repr : json -> string)
    (items : list (list (string * json))) :
  forall index,
    print_results repr index (map JObj items)
    = (Ok tt, map (printed repr) (enumerate index items)).
Proof.
  induction items as [|item items IH]; intros index; [reflexivity|].
  cbn [map print_results get enumerate].
  rewrite !bind_lift_ok, bind_emit, IH. reflexivity.
Qed.



(** *** Whole runs *)




Lemma load_config_found (read_config : string -> option json)
    (config_path : string) (config : json) :
  read_config config_path = Some config ->
  load_config read_config config_path = (Ok config, [ReadFile config_path]).
Proof. unfold load_config. rewrite bind_emit. now intros ->. Qed.

Lemma replace_underscored (s : string) : replace " " "_" s = underscored s.
Proof.
  induction s as [|c s IH]; [reflexivity|]. cbn. now rewrite IH.
Qed.

(** The three output steps of a run, on results that are all objects and
    with both files opening. *)
Lemma outputs_of_items (open_write : string -> bool) (repr : json -> string)
    (items : list (list (string * json))) (json_filename csv_filename : string) :
  open_write json_filename = true ->
  open_write csv_filename = true ->
  (save_results_to_json open_write (map JObj items) json_filename ;;
   save_results_to_csv open_write (map JObj items) csv_filename ;;
   print_results repr 1 (map JObj items))
  = (Ok tt,
     [OpenWrite json_filename;
      JsonDump json_filename (JArr (map JObj items)) 4;
      OpenWrite csv_filename;
      CsvRow csv_filename [JStr "Title"; JStr "Link"]]
     ++ map (csv_row csv_filename) items
     ++ map (printed repr) (enumerate 1 items))%list.
Proof.
  intros Hjson Hcsv. unfold save_results_to_json, save_results_to_csv, open_w.
  rewrite Hjson, Hcsv, write_rows_items, print_results_items. reflexivity.
Qed.

Section Run.

Variable read_config : string -> option json.
Variable open_write : string -> bool.
Variable http_post : string -> json -> json -> reply.
Variable http_get : string -> json -> reply.
Variable repr : json -> string.
Variables (arg_search_keyword arg_config : string).

Local Abbreviation run :=
  (main read_config open_write http_post http_get repr
     arg_search_keyword arg_config).
Local Abbreviation keyword := (strip arg_search_keyword).
Local Abbreviation path := (strip arg_config).

(** X12. A configuration file that is missing or malformed ends the run
    with exit status 1 right after the attempt to read it: no request is
    issued and nothing is written. *)
Theorem X12_config_failure_exits :
  blank arg_search_keyword = false ->
  read_config path = None ->
  run = (Raise (SystemExit 1), [ReadFile path])
  /\ exit_status (outcome run) = 1.
Proof.
  intros Hkw Hread. unfold main, load_config.
  rewrite (strip_not_blank _ Hkw). cbn [negb].
  rewrite Hread. split; reflexivity.
Qed.

(** X13. Whenever the keyword has a character that is not whitespace,
    the first thing the run does is read the configuration file named by
    the trimmed path, whatever happens afterwards. *)
Theorem X13_config_read_first :
  blank arg_search_keyword = false ->
  exists rest, trace run = ReadFile path :: rest.
Proof.
  intros Hkw. unfold main.
  rewrite (strip_not_blank _ Hkw). cbn [negb].
  destruct (read_config path) as [config|] eqn:Hread.
  - rewrite (load_config_found _ _ _ Hread), bind_ok.
    cbn [trace snd app]. eexists. reflexivity.
  - unfold load_config. rewrite bind_emit, Hread.
    cbn. eexists. reflexivity.
Qed.

(** X14. With the search-API key or the engine identifier missing, a run
    whose query could be built completes normally with exit status 0: it
    issues no search request, writes no file and prints nothing. *)
Theorem X14_no_credentials_no_output
    (m : list (string * json)) (refined_query : string) (t : list event) :
  blank arg_search_keyword = false ->
  read_config path = Some (JObj m) ->
  build_google_dorking_query http_post repr keyword (JObj m)
  = (Ok refined_query, t) ->
  missing m "GOOGLE_API_KEY" \/ missing m "CX" ->
  run = (Ok tt, ReadFile path :: t)
  /\ exit_status (outcome run) = 0.
Proof.
  intros Hkw Hread Hbuild Hcred. unfold main.
  rewrite (strip_not_blank _ Hkw). cbn [negb].
  rewrite (load_config_found _ _ _ Hread), bind_ok, Hbuild, bind_ok.
  assert (Hsearch : google_search http_get refined_query (JObj m) 10
                    = (Ok [], [])).
  { apply google_search_no_credentials.
    destruct Hcred as [H | H]; apply missing_falsy in H; rewrite H;
      [reflexivity|apply andb_false_r]. }
  rewrite Hsearch. cbn. rewrite app_nil_r. split; reflexivity.
Qed.

(** X15. A run that finds results (all of them objects) and can open its
    two output files writes the structured file with every item, then
    the table with its header and one row per item, then prints the items
    numbered from 1 (a missing title or link as the word None), and ends
    with exit status 0; both file names are the trimmed keyword with an
    underscore for every space, plus the fixed suffix. *)
Theorem X15_successful_run
    (config : json) (refined_query : string) (t1 t2 : list event)
    (items : list (list (string * json))) :
  blank arg_search_keyword = false ->
  read_config path = Some config ->
  build_google_dorking_query http_post repr keyword config
  = (Ok refined_query, t1) ->
  google_search http_get refined_query config 10 = (Ok (map JObj items), t2) ->
  items <> [] ->
  open_write (json_name keyword) = true ->
  open_write (csv_name keyword) = true ->
  run
  = (Ok tt,
     ReadFile path
     :: t1 ++ t2
     ++ [OpenWrite (json_name keyword);
         JsonDump (json_name keyword) (JArr (map JObj items)) 4;
         OpenWrite (csv_name keyword);
         CsvRow (csv_name keyword) [JStr "Title"; JStr "Link"]]
     ++ map (csv_row (csv_name keyword)) items
     ++ map (printed repr) (enumerate 1 items))%list
  /\ exit_status (outcome run) = 0.
Proof.
  intros Hkw Hread Hbuild Hsearch Hitems Hjson Hcsv. unfold main.
  rewrite (strip_not_blank _ Hkw). cbn [negb].
  rewrite (load_config_found _ _ _ Hread), bind_ok, Hbuild, bind_ok.
  rewrite Hsearch, bind_ok.
  destruct items as [|item items]; [contradiction|].
  cbn [map truthy].
  change (JObj item :: map JObj items) with (map JObj (item :: items)).
  unfold json_name, csv_name in *. rewrite replace_underscored.
  rewrite (outputs_of_items open_write repr (item :: items) _ _ Hjson Hcsv).
  cbn [outcome trace fst snd]. split; reflexivity.
Qed.

(** X17. When the search returned results and the structured file cannot
    be opened (for instance because the keyword holds a slash and names a
    directory that does not exist), the error of [open] ends the run with
    exit status 1: the table is never opened and nothing is printed. *)
Theorem X17_unwritable_output
    (config : json) (refined_query : string) (t1 t2 : list event)
    (results : list json) :
  blank arg_search_keyword = false ->
  read_config path = Some config ->
  build_google_dorking_query http_post repr keyword config
  = (Ok refined_query, t1) ->
  google_search http_get refined_query config 10 = (Ok results, t2) ->
  results <> [] ->
  open_write (json_name keyword) = false ->
  run
  = (Raise OSError,
     ReadFile path :: t1 ++ t2 ++ [OpenWrite (json_name keyword)])%list
  /\ exit_status (outcome run) = 1.
Proof.
  intros Hkw Hread Hbuild Hsearch Hresults Hjson. unfold main.
  rewrite (strip_not_blank _ Hkw). cbn [negb].
  rewrite (load_config_found _ _ _ Hread), bind_ok, Hbuild, bind_ok.
  rewrite Hsearch, bind_ok.
  destruct results as [|item results]; [contradiction|].
  cbn [truthy].
  unfold json_name in *. rewrite replace_underscored.
  unfold save_results_to_json, open_w. rewrite Hjson.
  cbn [outcome trace fst snd]. split; reflexivity.
Qed.

End Run.

Lemma X12_config_failure_witness :
  main no_config any_file (says "X,Y") full_pages no_repr
    "APT28" " config.json "
  = (Raise (SystemExit 1), [ReadFile (strip " config.json ")])
  /\ exit_status
       (outcome (main no_config any_file (says "X,Y") full_pages no_repr
                   "APT28" " config.json ")) = 1.
Proof.
  apply X12_config_failure_exits; reflexivity.
Defined.

Lemma X13_config_read_first_witness :
  exists rest,
    trace (main (reads config_full) any_file unreachable search_down no_repr
             " APT 28" "config.json")
    = ReadFile (strip "config.json") :: rest.
Proof.
  apply X13_config_read_first. reflexivity.
Defined.

Lemma X14_no_credentials_witness :
  main (reads config_query) any_file (says "X,Y") one_page no_repr
    "APT28" "config.json"
  = (Ok tt,
     ReadFile (strip "config.json")
     :: [HttpPost (gemini_url no_repr (JStr "gm-key")) headers
           (payload "APT28") 10])
  /\ exit_status
       (outcome (main (reads config_query) any_file (says "X,Y") one_page
                   no_repr "APT28" "config.json")) = 0.
Proof.
  apply (X14_no_credentials_no_output (reads config_query) any_file
           (says "X,Y") one_page no_repr "APT28" "config.json" config_query
           (query_of ["X"; "Y"] ["a.com"] ["malware"])).
  - reflexivity.
  - reflexivity.
  - reflexivity.
  - left. left. reflexivity.
Defined.

(** The example run, with every written and printed text spelled out. *)
Lemma X15_successful_run_witness :
  main (reads config_full) flat_directory (says "X,Y") one_page no_repr
    "APT 28" "config.json"
  = (Ok tt,
     ReadFile "config.json"
     :: [HttpPost (gemini_url no_repr (JStr "gm-key")) headers
           (payload "APT 28") 10]
     ++ page_events (JStr "g-key") (JStr "engine")
          (query_of ["X"; "Y"] ["a.com"] ["malware"]) 10 1
     ++ [OpenWrite "APT_28_search_results.json";
         JsonDump "APT_28_search_results.json" (JArr (map JObj two_items)) 4;
         OpenWrite "APT_28_search_results.csv";
         CsvRow "APT_28_search_results.csv" [JStr "Title"; JStr "Link"]]
     ++ [CsvRow "APT_28_search_results.csv"
           [JStr "APT28 report"; JStr "https://example.org/apt28"];
         CsvRow "APT_28_search_results.csv" [JStr "Fancy Bear"; JStr "N/A"]]
     ++ [Print ("1. APT28 report"
                ++ String "010"%char
                     ("https://example.org/apt28"
                      ++ String "010"%char EmptyString));
         Print ("2. Fancy Bear"
                ++ String "010"%char ("None" ++ String "010"%char EmptyString))])%list
  /\ exit_status
       (outcome (main (reads config_full) flat_directory (says "X,Y") one_page
                   no_repr "APT 28" "config.json")) = 0.
Proof.
  exact (X15_successful_run (reads config_full) flat_directory (says "X,Y")
           one_page no_repr "APT 28" "config.json" (JObj config_full)
           (query_of ["X"; "Y"] ["a.com"] ["malware"]) _ _ two_items
           eq_refl eq_refl eq_refl eq_refl
           (fun H => eq_ind two_items
                       (fun l => match l with [] => False | _ => True end)
                       I [] H)
           eq_refl eq_refl).
Defined.

(** A keyword with a slash names a file in a directory that is not
    there. *)
Lemma X17_unwritable_output_witness :
  main (reads config_full) flat_directory (says "X,Y") one_page no_repr
    "W32/Sality" "config.json"
  = (Raise OSError,
     ReadFile (strip "config.json")
     :: [HttpPost (gemini_url no_repr (JStr "gm-key")) headers
           (payload "W32/Sality") 10]
     ++ page_events (JStr "g-key") (JStr "engine")
          (query_of ["X"; "Y"] ["a.com"] ["malware"]) 10 1
     ++ [OpenWrite (json_name (strip "W32/Sality"))])%list
  /\ exit_status
       (outcome (main (reads config_full) flat_directory (says "X,Y") one_page
                   no_repr "W32/Sality" "config.json")) = 1.
Proof.
  apply (X17_unwritable_output (reads config_full) flat_directory
           (says "X,Y") one_page no_repr "W32/Sality" "config.json"
           (JObj config_full)
           (query_of ["X"; "Y"] ["a.com"] ["malware"]) _ _
           (map JObj two_items)).
  - reflexivity.
  - reflexivity.
  - reflexivity.
  - reflexivity.
  - discriminate.
  - reflexivity.
Defined.

(** The output file names of the example run. *)
Example names_for_two_words :
  json_name "APT 28" = "APT_28_search_results.json"
  /\ csv_name "APT 28" = "APT_28_search_results.csv".
Proof. split; reflexivity. Qed.







